(** * EPL analytics dashboard (app.py): filter, league table, predictor

    A shallow embedding of the computations of [app.py] and the proofs of
    the properties its specification states.

    Modelling conventions.
    - A pandas data frame is the list of its rows, in row order; boolean
      indexing [df[mask]] is [filter]; [len] is the length as an integer.
    - Python [int] is [Z]; team names, seasons and result codes are
      strings, compared with [==] as Python compares [str].
    - Python [float] values are modelled twice.  [pyfloat] is an exact
      rational or NaN, arithmetic without rounding, for the properties that
      do not hinge on rounding: which branch runs, counts, bounds.  The
      predictor, whose label and confidence are decided by the rounded
      numbers, is given over binary64 in module [B64].
    - An exception that escapes a block is a [Raise] in [result]. *)

From Stdlib Require Import ZArith QArith Qabs Qminmax List String Bool Lia Lqa.
From Stdlib Require Import Permutation Sorted Finite Floats.
Import ListNotations.

Open Scope string_scope.
Open Scope list_scope.
Open Scope Z_scope.

(** ** Python values *)

Module Py.

Inductive exn : Type :=
| ZeroDivisionError
| KeyError (key : string)
| ValueError.

Inductive result (A : Type) : Type :=
| Ok (a : A)
| Raise (e : exn).

Arguments Ok {A} a.
Arguments Raise {A} e.

Definition bind {A B} (r : result A) (k : A -> result B) : result B :=
  match r with
  | Ok a => k a
  | Raise e => Raise e
  end.

(** [len(xs)] *)
Definition len {A} (xs : list A) : Z := Z.of_nat (List.length xs).

(** truth value of a list: [if xs:] *)
Definition truthy {A} (xs : list A) : bool :=
  match xs with
  | [] => false
  | _ :: _ => true
  end.

(** [range(lo, hi)] *)
Definition range (lo hi : Z) : list Z :=
  map (fun i => lo + Z.of_nat i) (seq 0 (Z.to_nat (hi - lo))).

(** A float: an exact rational, or NaN. *)
Inductive pyfloat : Type :=
| nan
| fin (q : Q).

Definition of_int (n : Z) : pyfloat := fin (inject_Z n).

Definition lift2 (op : Q -> Q -> Q) (a b : pyfloat) : pyfloat :=
  match a, b with
  | fin x, fin y => fin (op x y)
  | _, _ => nan
  end.

Definition fadd : pyfloat -> pyfloat -> pyfloat := lift2 Qplus.
Definition fsub : pyfloat -> pyfloat -> pyfloat := lift2 Qminus.
Definition fmul : pyfloat -> pyfloat -> pyfloat := lift2 Qmult.

(** [a / b] on floats where [b] is a non-zero literal. *)
Definition fdiv : pyfloat -> pyfloat -> pyfloat := lift2 Qdiv.

Definition fabs (a : pyfloat) : pyfloat :=
  match a with
  | fin x => fin (Qabs x)
  | nan => nan
  end.

(** [a < b]; every comparison with NaN is false. *)
Definition flt (a b : pyfloat) : bool :=
  match a, b with
  | fin x, fin y => if Qlt_le_dec x y then true else false
  | _, _ => false
  end.

(** [a > b] *)
Definition fgt (a b : pyfloat) : bool := flt b a.

(** The builtin [min(a, b)]: [b] when [b < a], else [a]. *)
Definition py_min (a b : pyfloat) : pyfloat := if flt b a then b else a.

(** The builtin [max(a, b)]: [b] when [b > a], else [a]. *)
Definition py_max (a b : pyfloat) : pyfloat := if fgt b a then b else a.

(** [a / b] on two [int]s: true division, raising on a zero divisor. *)
Definition truediv (a b : Z) : result pyfloat :=
  if b =? 0 then Raise ZeroDivisionError
  else Ok (fin (inject_Z a / inject_Z b)).

(** Nearest integer, ties to the even one. *)
Definition round_half_even (q : Q) : Z :=
  let n := Qnum q in
  let d := Z.pos (Qden q) in
  let lo := n / d in
  let twice := 2 * (n mod d) in
  if twice <? d then lo
  else if d <? twice then lo + 1
  else if Z.even lo then lo else lo + 1.

(** [round(x, 2)] *)
Definition round2 (a : pyfloat) : pyfloat :=
  match a with
  | fin x => fin (Qmake (round_half_even (x * 100)) 100)
  | nan => nan
  end.

(** [Series.sum()] of an integer column. *)
Definition Series_sum (xs : list Z) : Z := fold_right Z.add 0 xs.

(** [Series.mean()] of an integer column: NaN on an empty one. *)
Definition Series_mean (xs : list Z) : pyfloat :=
  match xs with
  | [] => nan
  | _ :: _ => fin (inject_Z (Series_sum xs) / inject_Z (len xs))
  end.

(** [Series.isin(values)] at one cell. *)
Definition isin (x : string) (values : list string) : bool :=
  existsb (String.eqb x) values.

End Py.

Import Py.

(** ** Data model *)

(** One row of the match data frame.  [MatchDate] is the calendar day
    ([MatchDate.dt.date]) as a day number. *)
Record Match : Type := mkMatch {
  MatchDate : Z;
  Season : string;
  HomeTeam : string;
  AwayTeam : string;
  FullTimeHomeGoals : Z;
  FullTimeAwayGoals : Z;
  FullTimeResult : string
}.

(** The loaded data frame: its rows and whether the two optional columns
    are among [df.columns]. *)
Record DataFrame : Type := mkDataFrame {
  has_Season : bool;
  has_MatchDate : bool;
  rows : list Match
}.

(** The sidebar widgets' values. *)
Record Filters : Type := mkFilters {
  selected_teams : list string;
  selected_seasons : list string;
  date_range : list Z;
  min_goals : Z;
  max_goals : Z
}.

(** The column [filtered_df['TotalGoals']], assigned from the two goal
    columns of the same row. *)
Definition TotalGoals (r : Match) : Z :=
  FullTimeHomeGoals r + FullTimeAwayGoals r.

(** ** Filters (lines 100-121) *)

Definition team_mask (f : Filters) (r : Match) : bool :=
  isin (HomeTeam r) (selected_teams f) || isin (AwayTeam r) (selected_teams f).

Definition season_mask (f : Filters) (r : Match) : bool :=
  isin (Season r) (selected_seasons f).

Definition date_mask (d0 d1 : Z) (r : Match) : bool :=
  (d0 <=? MatchDate r) && (MatchDate r <=? d1).

Definition goals_mask (f : Filters) (r : Match) : bool :=
  (min_goals f <=? TotalGoals r) && (TotalGoals r <=? max_goals f).

Definition apply_filters (df : DataFrame) (f : Filters) : list Match :=
  let filtered_df := rows df in
  let filtered_df :=
    if truthy (selected_teams f)
    then filter (team_mask f) filtered_df
    else filtered_df in
  let filtered_df :=
    if has_Season df && truthy (selected_seasons f)
    then filter (season_mask f) filtered_df
    else filtered_df in
  let filtered_df :=
    if has_MatchDate df && (len (date_range f) =? 2)
    then filter (date_mask (nth 0 (date_range f) 0) (nth 1 (date_range f) 0))
           filtered_df
    else filtered_df in
  filter (goals_mask f) filtered_df.

(** ** Stable sorting

    [DataFrame.sort_values] with several [by] columns orders the rows with
    a stable lexicographic sort, and [sorted] is stable as well.  Both are
    modelled by the stable insertion sort below; [before x y] says that
    [x] may stand in front of [y]. *)

Section StableSort.

Context {A : Type} (before : A -> A -> bool).

Fixpoint insert_before (x : A) (l : list A) : list A :=
  match l with
  | [] => [x]
  | y :: l' => if before x y then x :: l else y :: insert_before x l'
  end.

Definition stable_sort (l : list A) : list A :=
  fold_right insert_before [] l.

(** The order relation of [before]. *)
Definition goes_before (x y : A) : Prop := before x y = true.

End StableSort.

(** [all_teams = sorted(set(df['HomeTeam']).union(df['AwayTeam']))] *)
Definition all_teams (df : DataFrame) : list string :=
  stable_sort String.leb
    (nodup string_dec (map HomeTeam (rows df) ++ map AwayTeam (rows df))).

(** ** Tab 1: overview metrics (lines 133-148) *)

Notation "x <- e ;; k" := (bind e (fun x => k))
  (at level 61, e at next level, right associativity).

Definition result_is (code : string) (r : Match) : bool :=
  String.eqb (FullTimeResult r) code.

Record Overview : Type := mkOverview {
  total_matches : Z;
  total_goals : Z;
  avg_goals : pyfloat;
  home_win_pct : pyfloat;
  away_win_pct : pyfloat
}.

Definition overview (filtered_df : list Match) : result Overview :=
  let total_matches := len filtered_df in
  let total_goals := Series_sum (map TotalGoals filtered_df) in
  let avg_goals := Series_mean (map TotalGoals filtered_df) in
  let home_wins := len (filter (result_is "H") filtered_df) in
  let away_wins := len (filter (result_is "A") filtered_df) in
  home_ratio <- truediv home_wins total_matches ;;
  away_ratio <- truediv away_wins total_matches ;;
  Ok (mkOverview total_matches total_goals avg_goals
        (fmul home_ratio (of_int 100)) (fmul away_ratio (of_int 100))).

(** ** Tab 2: league table (lines 175-235) *)

Record Standing : Type := mkStanding {
  Position : Z;
  Team : string;
  Played : Z;
  Wins : Z;
  Draws : Z;
  Losses : Z;
  GF : Z;
  GA : Z;
  GD : Z;
  Points : Z;
  Points_per_Game : pyfloat
}.

Definition home_of (team : string) (r : Match) : bool :=
  String.eqb (HomeTeam r) team.

Definition away_of (team : string) (r : Match) : bool :=
  String.eqb (AwayTeam r) team.

(** One pass of the loop body for [team]: [None] is the [continue]. *)
Definition team_standing (filtered_df : list Match) (team : string)
  : option Standing :=
  let home := filter (home_of team) filtered_df in
  let away := filter (away_of team) filtered_df in
  let played := len home + len away in
  if played =? 0 then None
  else
    let wins := len (filter (result_is "H") home)
                + len (filter (result_is "A") away) in
    let draws := len (filter (result_is "D") home)
                 + len (filter (result_is "D") away) in
    let losses := played - wins - draws in
    let gf := Series_sum (map FullTimeHomeGoals home)
              + Series_sum (map FullTimeAwayGoals away) in
    let ga := Series_sum (map FullTimeAwayGoals home)
              + Series_sum (map FullTimeHomeGoals away) in
    let gd := gf - ga in
    let points := wins * 3 + draws in
    Some {| Position := 0;
            Team := team;
            Played := played;
            Wins := wins;
            Draws := draws;
            Losses := losses;
            GF := gf;
            GA := ga;
            GD := gd;
            Points := points;
            Points_per_Game :=
              if 0 <? played
              then round2 (fin (inject_Z points / inject_Z played))
              else of_int 0 |}.

(** [for team in teams_to_show: ...; league_table.append({...})] *)
Fixpoint league_table_loop (filtered_df : list Match)
  (teams_to_show : list string) (league_table : list Standing)
  : list Standing :=
  match teams_to_show with
  | [] => league_table
  | team :: rest =>
      match team_standing filtered_df team with
      | None => league_table_loop filtered_df rest league_table
      | Some row => league_table_loop filtered_df rest (league_table ++ [row])
      end
  end.

Definition teams_to_show (df : DataFrame) (f : Filters) : list string :=
  if truthy (selected_teams f) then selected_teams f else all_teams df.

Definition league_table (filtered_df : list Match) (teams : list string)
  : list Standing :=
  league_table_loop filtered_df teams [].

(** Row order of [sort_values(by=['Points', 'GD'], ascending=False)]:
    [x] may precede [y] when its (Points, GD) pair is not smaller. *)
Definition rank_before (x y : Standing) : bool :=
  (Points y <? Points x) || ((Points x =? Points y) && (GD y <=? GD x)).

(** [pd.DataFrame(league_table).sort_values(by=['Points', 'GD'],
    ascending=False).reset_index(drop=True)].  The frame built from an
    empty list has no columns, so the lookup of 'Points' fails. *)
Definition sort_values (league_table : list Standing)
  : result (list Standing) :=
  match league_table with
  | [] => Raise (KeyError "Points")
  | _ :: _ => Ok (stable_sort rank_before league_table)
  end.

Definition with_Position (r : Standing) (p : Z) : Standing :=
  {| Position := p;
     Team := Team r;
     Played := Played r;
     Wins := Wins r;
     Draws := Draws r;
     Losses := Losses r;
     GF := GF r;
     GA := GA r;
     GD := GD r;
     Points := Points r;
     Points_per_Game := Points_per_Game r |}.

(** [league_df['Position'] = values], row by row. *)
Definition set_Position (league_df : list Standing) (values : list Z)
  : list Standing :=
  map (fun rp => with_Position (fst rp) (snd rp)) (combine league_df values).

Definition league_df (league_table : list Standing)
  : result (list Standing) :=
  sorted <- sort_values league_table ;;
  Ok (set_Position sorted (range 1 (len sorted + 1))).

(** [df.loc[df[col].idxmax()]]: the first row whose cell is the largest,
    [ValueError] on an empty column.  [lt] compares two cells. *)
Definition loc_idxmax {C : Type} (lt : C -> C -> bool)
  (col : Standing -> C) (league_df : list Standing) : result Standing :=
  match league_df with
  | [] => Raise ValueError
  | r :: rest =>
      Ok (fold_left (fun best x => if lt (col best) (col x) then x else best)
            rest r)
  end.

Record LeagueTab : Type := mkLeagueTab {
  table : list Standing;
  top_scorer : Standing;
  best_defense : Standing;
  most_efficient : Standing
}.

Definition league_tab (df : DataFrame) (f : Filters)
  (filtered_df : list Match) : result LeagueTab :=
  let league_table := league_table filtered_df (teams_to_show df f) in
  league_df <- league_df league_table ;;
  top_scorer <- loc_idxmax Z.ltb GF league_df ;;
  best_defense <- loc_idxmax Z.gtb GA league_df ;;
  most_efficient <- loc_idxmax flt Points_per_Game league_df ;;
  Ok (mkLeagueTab league_df top_scorer best_defense most_efficient).

(** ** Tab 4: outcome predictor (lines 295-329) *)

(** Lines 310-318: the label and the confidence from the two strengths. *)
Definition prediction_logic (home_strength away_strength : pyfloat)
  : string * pyfloat :=
  if fgt home_strength (fadd away_strength (fin (1 # 2))) then
    ("Home Win",
     py_min (of_int 95)
       (fadd (of_int 60)
          (fmul (fabs (fsub home_strength away_strength)) (of_int 10))))
  else if fgt away_strength (fadd home_strength (fin (1 # 2))) then
    ("Away Win",
     py_min (of_int 95)
       (fadd (of_int 60)
          (fmul (fabs (fsub away_strength home_strength)) (of_int 10))))
  else ("Draw", of_int 50).

Inductive Predicted : Type :=
| Metrics (prediction : string) (confidence : pyfloat)
    (predicted_goals : pyfloat)
| Warning (message : string).

Definition predict_match_outcome (filtered_df : list Match)
  (home_team away_team : string) : Predicted :=
  let home_data := filter (home_of home_team) filtered_df in
  let away_data := filter (away_of away_team) filtered_df in
  if (0 <? len home_data) && (0 <? len away_data) then
    let home_avg_scored := Series_mean (map FullTimeHomeGoals home_data) in
    let home_avg_conceded := Series_mean (map FullTimeAwayGoals home_data) in
    let away_avg_scored := Series_mean (map FullTimeAwayGoals away_data) in
    let away_avg_conceded := Series_mean (map FullTimeHomeGoals away_data) in
    let home_strength := fsub home_avg_scored home_avg_conceded in
    let away_strength := fsub away_avg_scored away_avg_conceded in
    let pc := prediction_logic home_strength away_strength in
    let predicted_goals :=
      py_max (of_int 0)
        (fdiv (fadd home_avg_scored away_avg_scored) (of_int 2)) in
    Metrics (fst pc) (snd pc) predicted_goals
  else Warning "Not enough data for these teams in the selected filters.".

(** ** Tab 5: points of one match for a team (lines 366-374) *)

Definition get_team_result (row : Match) (team : string) : Z :=
  if String.eqb (HomeTeam row) team then
    if String.eqb (FullTimeResult row) "H" then 3
    else if String.eqb (FullTimeResult row) "D" then 1
    else 0
  else
    if String.eqb (FullTimeResult row) "A" then 3
    else if String.eqb (FullTimeResult row) "D" then 1
    else 0.

(** ** The script, tabs 1 and 2 in order

    An exception raised in a tab ends the run: what follows it is not
    rendered. *)
Definition dashboard (df : DataFrame) (f : Filters)
  : result (Overview * LeagueTab) :=
  let filtered_df := apply_filters df f in
  o <- overview filtered_df ;;
  t <- league_tab df f filtered_df ;;
  Ok (o, t).

(** ** Sidebar: season list and date bounds (lines 81-88) *)

(** [seasons = sorted(df['Season'].unique())] *)
Definition seasons (df : DataFrame) : list string :=
  stable_sort String.leb (nodup string_dec (map Season (rows df))).

(** [Series.min()] and [Series.max()] of the day column; [None] is the
    NaT of an empty column. *)
Definition Series_min (xs : list Z) : option Z :=
  match xs with
  | [] => None
  | x :: rest => Some (fold_left Z.min rest x)
  end.

Definition Series_max (xs : list Z) : option Z :=
  match xs with
  | [] => None
  | x :: rest => Some (fold_left Z.max rest x)
  end.

Definition min_date (df : DataFrame) : option Z :=
  Series_min (map MatchDate (rows df)).

Definition max_date (df : DataFrame) : option Z :=
  Series_max (map MatchDate (rows df)).

(** ** Tab 2: row colours (lines 212-222) *)

Definition champions_league : string := "background-color: #d4edda".
Definition europa_league : string := "background-color: #fff3cd".
Definition relegation : string := "background-color: #f8d7da".

(** [len(row)]: the eleven columns of the league frame. *)
Definition row_len : nat := 11.

Definition color_positions (league_df : list Standing) (row : Standing)
  : list string :=
  if Position row <=? 4 then repeat champions_league row_len
  else if Position row <=? 6 then repeat europa_league row_len
  else if len league_df - 2 <=? Position row then repeat relegation row_len
  else repeat "" row_len.

(** [league_df.style.apply(color_positions, axis=1)] *)
Definition styled_df (league_df : list Standing) : list (list string) :=
  map (color_positions league_df) league_df.

(** ** Tab 3: home performance (lines 246-250) *)



(** ** Tab 5: team deep dive (lines 338-377) *)

(** [team_all = pd.concat([team_home, team_away])] *)
Definition team_all (filtered_df : list Match) (team : string)
  : list Match :=
  filter (home_of team) filtered_df ++ filter (away_of team) filtered_df.

Definition goals_scored (filtered_df : list Match) (team : string) : Z :=
  Series_sum (map FullTimeHomeGoals (filter (home_of team) filtered_df))
  + Series_sum (map FullTimeAwayGoals (filter (away_of team) filtered_df)).

Definition goals_conceded (filtered_df : list Match) (team : string) : Z :=
  Series_sum (map FullTimeAwayGoals (filter (home_of team) filtered_df))
  + Series_sum (map FullTimeHomeGoals (filter (away_of team) filtered_df)).

(** [team_all.sort_values('MatchDate')]: the rows in ascending date
    order.  The order of rows of one day is not fixed by a sort on a
    single column, so the result is given as a relation. *)
Definition sorted_by_MatchDate (team_all team_all_sorted : list Match)
  : Prop :=
  Permutation team_all team_all_sorted /\
  StronglySorted (fun x y => MatchDate x <= MatchDate y) team_all_sorted.

(** [team_all_sorted.apply(lambda x: get_team_result(x, team), axis=1)] *)
Definition Points_column (team_all_sorted : list Match) (team : string)
  : list Z :=
  map (fun x => get_team_result x team) team_all_sorted.

(** [Series.cumsum()] *)
Fixpoint cumsum_from (total : Z) (xs : list Z) : list Z :=
  match xs with
  | [] => []
  | x :: rest => (total + x) :: cumsum_from (total + x) rest
  end.

Definition cumsum (xs : list Z) : list Z := cumsum_from 0 xs.

Definition Cumulative_Points (team_all_sorted : list Match) (team : string)
  : list Z :=
  cumsum (Points_column team_all_sorted team).

(** ** Vocabulary of the further properties *)

(** The team plays in some match of the frame. *)
Definition has_match (filtered_df : list Match) (team : string) : bool :=
  existsb (fun m => home_of team m || away_of team m) filtered_df.

(** The ranges a league row keeps. *)
Definition row_in_bounds (s : Standing) : Prop :=
  0 < Played s /\ 0 <= Wins s /\ 0 <= Draws s /\ 0 <= Losses s /\
  GD s = GF s - GA s /\ 0 <= Points s <= 3 * Played s /\
  exists q, Points_per_Game s = fin q /\ (0 <= q <= 3)%Q.

(** [best] is the first row of [table] whose cell is the largest under
    the comparison [lt]: the rows in front of it are smaller, no row
    behind it is larger. *)
Definition first_best {C : Type} (lt : C -> C -> bool)
  (col : Standing -> C) (table : list Standing) (best : Standing) : Prop :=
  exists l1 l2,
    table = l1 ++ best :: l2 /\
    Forall (fun x => lt (col x) (col best) = true) l1 /\
    Forall (fun x => lt (col best) (col x) = false) l2.

(** No record pairs a team with itself. *)
Definition no_self_match (filtered_df : list Match) : Prop :=
  forall m, In m filtered_df -> HomeTeam m <> AwayTeam m.

(** Strictly ascending strings: sorted and free of duplicates. *)
Definition strictly_ascending (l : list string) : Prop :=
  StronglySorted (fun a b => String.ltb a b = true) l.

(** ** The predictor in binary64 (lines 297-326)

    pandas and Python carry out the arithmetic of the predictor in IEEE
    754 binary64, rounding to nearest with ties to even: the means, the
    two strengths, the 0.5 margins and the confidence.  [B64] is the
    predictor over the kernel's binary64 numbers, operation by operation
    as the script performs them.  An [int] operand of a float operation is
    converted first; the conversion is exact for the literals 0, 2, 10,
    60 and 95 of the code.  [Series.mean()] adds the column in float64 and
    divides by the count: for goal counts every partial sum is an integer
    below 2^53 and hence exact, so the sum is the conversion of the
    integer total. *)

Module B64.

(** [float(n)]: the binary64 number nearest to [n], ties to even. *)
Definition of_int (n : Z) : float :=
  SF2Prim (binary_normalize prec emax n 0 false).

(** A Python number.  [min] and [max] return one of their arguments
    unchanged, so the confidence is the [int] 95 or 50, or a [float]. *)
Inductive number : Type :=
| Int (n : Z)
| Float (x : float).

(** [Series.mean()] of an integer column; 0.0 / 0.0 on an empty one. *)
Definition Series_mean (xs : list Z) : float :=
  (of_int (Series_sum xs) / of_int (len xs))%float.

(** [min(n, x)] with [n] an int and [x] a float: [x] when [x < n],
    else [n]. *)
Definition py_min (n : Z) (x : float) : number :=
  if (x <? of_int n)%float then Float x else Int n.

(** [max(n, x)] with [n] an int and [x] a float: [x] when [x > n],
    else [n]. *)
Definition py_max (n : Z) (x : float) : number :=
  if (of_int n <? x)%float then Float x else Int n.

(** Lines 310-318. *)
Definition prediction_logic (home_strength away_strength : float)
  : string * number :=
  if (away_strength + 0.5 <? home_strength)%float then
    ("Home Win",
     py_min 95
       (of_int 60 + abs (home_strength - away_strength) * of_int 10)%float)
  else if (home_strength + 0.5 <? away_strength)%float then
    ("Away Win",
     py_min 95
       (of_int 60 + abs (away_strength - home_strength) * of_int 10)%float)
  else ("Draw", Int 50).

Inductive Predicted : Type :=
| Metrics (prediction : string) (confidence predicted_goals : number)
| Warning (message : string).

(** Lines 297-329. *)
Definition predict_match_outcome (filtered_df : list Match)
  (home_team away_team : string) : Predicted :=
  let home_data := filter (home_of home_team) filtered_df in
  let away_data := filter (away_of away_team) filtered_df in
  if (0 <? len home_data) && (0 <? len away_data) then
    let home_avg_scored := Series_mean (map FullTimeHomeGoals home_data) in
    let home_avg_conceded := Series_mean (map FullTimeAwayGoals home_data) in
    let away_avg_scored := Series_mean (map FullTimeAwayGoals away_data) in
    let away_avg_conceded := Series_mean (map FullTimeHomeGoals away_data) in
    let home_strength := (home_avg_scored - home_avg_conceded)%float in
    let away_strength := (away_avg_scored - away_avg_conceded)%float in
    let pc := prediction_logic home_strength away_strength in
    let predicted_goals :=
      py_max 0 ((home_avg_scored + away_avg_scored) / of_int 2)%float in
    Metrics (fst pc) (snd pc) predicted_goals
  else Warning "Not enough data for these teams in the selected filters.".

End B64.

(** ** The specification's vocabulary

    The definitions below follow the words of the specification, not the
    code; the theorems compare them with the code above. *)

(** A filter dimension that is empty or absent constrains nothing. *)
Definition passes_teams (f : Filters) (r : Match) : Prop :=
  selected_teams f = [] \/
  In (HomeTeam r) (selected_teams f) \/ In (AwayTeam r) (selected_teams f).

Definition passes_seasons (df : DataFrame) (f : Filters) (r : Match) : Prop :=
  has_Season df = false \/ selected_seasons f = [] \/
  In (Season r) (selected_seasons f).

Definition passes_dates (df : DataFrame) (f : Filters) (r : Match) : Prop :=
  has_MatchDate df = false \/ List.length (date_range f) <> 2%nat \/
  exists d0 d1, date_range f = [d0; d1] /\ d0 <= MatchDate r <= d1.

Definition passes_goals (f : Filters) (r : Match) : Prop :=
  min_goals f <= FullTimeHomeGoals r + FullTimeAwayGoals r <= max_goals f.

Definition satisfies (df : DataFrame) (f : Filters) (r : Match) : Prop :=
  passes_teams f r /\ passes_seasons df f r /\ passes_dates df f r /\
  passes_goals f r.

(** The same conjunction as one row mask. *)
Definition keeps (df : DataFrame) (f : Filters) (r : Match) : bool :=
  (negb (truthy (selected_teams f)) || team_mask f r)
  && (negb (has_Season df && truthy (selected_seasons f)) || season_mask f r)
  && (negb (has_MatchDate df && (len (date_range f) =? 2))
      || date_mask (nth 0 (date_range f) 0) (nth 1 (date_range f) 0) r)
  && goals_mask f r.

(** The team takes part in the match. *)
Definition plays_in (team : string) (r : Match) : Prop :=
  HomeTeam r = team \/ AwayTeam r = team.

(** The standing invariant of the data model. *)
Definition standing_invariant (s : Standing) : Prop :=
  Wins s + Draws s + Losses s = Played s /\ Points s = Wins s * 3 + Draws s.

(** Two rows tie on both ranking keys. *)
Definition same_rank (p g : Z) (s : Standing) : bool :=
  (Points s =? p) && (GD s =? g).

(** Descending order on (points, goal difference). *)
Definition ranked_before (x y : Standing) : Prop :=
  Points y < Points x \/ (Points x = Points y /\ GD y <= GD x).

(** Mean of a column, and the two strengths of the predictor. *)
Definition average (xs : list Z) : Q :=
  (inject_Z (Series_sum xs) / inject_Z (len xs))%Q.

Definition homeStrength (filtered_df : list Match) (team : string) : Q :=
  let at_home := filter (home_of team) filtered_df in
  (average (map FullTimeHomeGoals at_home)
   - average (map FullTimeAwayGoals at_home))%Q.

Definition awayStrength (filtered_df : list Match) (team : string) : Q :=
  let away := filter (away_of team) filtered_df in
  (average (map FullTimeAwayGoals away)
   - average (map FullTimeHomeGoals away))%Q.

(** Points of a match for a team as the specification words them: 3 when
    the team won (home team with 'H' or away team with 'A'), 1 for a draw,
    0 otherwise. *)
Definition team_won (row : Match) (team : string) : bool :=
  (String.eqb (HomeTeam row) team && String.eqb (FullTimeResult row) "H")
  || (String.eqb (AwayTeam row) team && String.eqb (FullTimeResult row) "A").

Definition points_as_specified (row : Match) (team : string) : Z :=
  if team_won row team then 3
  else if String.eqb (FullTimeResult row) "D" then 1
  else 0.

(** The matches the predictor looks at: the home team's home fixtures
    and the away team's away fixtures of the filtered frame. *)
Definition home_fixture (filtered_df : list Match) (team : string)
  (m : Match) : Prop :=
  In m filtered_df /\ HomeTeam m = team.

Definition away_fixture (filtered_df : list Match) (team : string)
  (m : Match) : Prop :=
  In m filtered_df /\ AwayTeam m = team.

Definition not_enough_data : string :=
  "Not enough data for these teams in the selected filters.".

(** The strengths in binary64, as the specification words them: a team's
    mean goals scored minus its mean goals conceded, over its home
    fixtures for the home team and over its away fixtures for the away
    team; a mean is the total of the column over the number of fixtures,
    both as binary64 numbers. *)
Definition fixtures_at_home (filtered_df : list Match) (team : string)
  : list Match :=
  filter (fun m => if string_dec (HomeTeam m) team then true else false)
    filtered_df.

Definition fixtures_away (filtered_df : list Match) (team : string)
  : list Match :=
  filter (fun m => if string_dec (AwayTeam m) team then true else false)
    filtered_df.

Definition mean64 (xs : list Z) : float :=
  (B64.of_int (fold_left Z.add xs 0%Z)
   / B64.of_int (Z.of_nat (List.length xs)))%float.

Definition homeStrength64 (filtered_df : list Match) (team : string)
  : float :=
  (mean64 (map FullTimeHomeGoals (fixtures_at_home filtered_df team))
   - mean64 (map FullTimeAwayGoals (fixtures_at_home filtered_df team)))%float.

Definition awayStrength64 (filtered_df : list Match) (team : string)
  : float :=
  (mean64 (map FullTimeAwayGoals (fixtures_away filtered_df team))
   - mean64 (map FullTimeHomeGoals (fixtures_away filtered_df team)))%float.

(** ** Sample data of the specification's examples *)

Definition sample_match_1 : Match := mkMatch 1 "2023/24" "A" "B" 2 1 "H".
Definition sample_match_2 : Match := mkMatch 2 "2023/24" "B" "A" 0 0 "D".
Definition sample_df : DataFrame :=
  mkDataFrame true true [sample_match_1; sample_match_2].

(** * Proofs *)

(** ** Stable sorting *)

Section StableSortFacts.

Context {A : Type} (before : A -> A -> bool).

Hypothesis before_total :
  forall x y, before x y = true \/ before y x = true.
Hypothesis before_trans :
  forall x y z, before x y = true -> before y z = true -> before x z = true.

Lemma insert_before_perm (x : A) (l : list A) :
  Permutation (x :: l) (insert_before before x l).
Proof.
  induction l as [|y l IH]; simpl; [reflexivity|].
  destruct (before x y); [reflexivity|].
  rewrite perm_swap. now apply perm_skip.
Qed.

Lemma stable_sort_perm (l : list A) :
  Permutation l (stable_sort before l).
Proof.
  induction l as [|x l IH]; simpl; [constructor|].
  etransitivity; [apply perm_skip, IH | apply insert_before_perm].
Qed.

Lemma insert_before_sorted (x : A) (l : list A) :
  StronglySorted (goes_before before) l ->
  StronglySorted (goes_before before) (insert_before before x l).
Proof.
  induction 1 as [|y l Hs IH Hy]; simpl.
  - repeat constructor.
  - destruct (before x y) eqn:E.
    + constructor; [now constructor|].
      constructor; [exact E|].
      eapply Forall_impl; [|exact Hy].
      intros z Hz. unfold goes_before in *. eauto.
    + constructor; [exact IH|].
      assert (Hyx : goes_before before y x)
        by (destruct (before_total x y); [congruence | assumption]).
      eapply Permutation_Forall; [apply insert_before_perm|].
      constructor; assumption.
Qed.

Lemma stable_sort_sorted (l : list A) :
  StronglySorted (goes_before before) (stable_sort before l).
Proof.
  induction l; simpl; [constructor | now apply insert_before_sorted].
Qed.

(** A mask whose rows all tie sees the inserted row in front. *)
Lemma filter_insert_before (p : A -> bool) (x : A) (l : list A) :
  (forall y, p x = true -> p y = true -> before x y = true) ->
  filter p (insert_before before x l) = filter p (x :: l).
Proof.
  intros Htie. induction l as [|y l IH]; simpl; [reflexivity|].
  destruct (before x y) eqn:E; [reflexivity|].
  simpl. rewrite IH. simpl.
  pose proof (Htie y) as Hy.
  destruct (p x); [|reflexivity].
  destruct (p y); [|reflexivity].
  rewrite Hy in E by reflexivity. discriminate.
Qed.

Lemma filter_stable_sort (p : A -> bool) (l : list A) :
  (forall x y, p x = true -> p y = true -> before x y = true) ->
  filter p (stable_sort before l) = filter p l.
Proof.
  intros Htie. induction l as [|x l IH]; simpl; [reflexivity|].
  rewrite filter_insert_before by (intros; now apply Htie).
  simpl. now rewrite IH.
Qed.

Lemma stable_sort_sorted_id (l : list A) :
  Sorted (goes_before before) l -> stable_sort before l = l.
Proof.
  induction 1 as [|x l Hs IH Hx]; simpl; [reflexivity|].
  rewrite IH. destruct Hx as [|y l Hxy]; simpl; [reflexivity|].
  unfold goes_before in Hxy. now rewrite Hxy.
Qed.

Lemma stable_sort_idempotent (l : list A) :
  stable_sort before (stable_sort before l) = stable_sort before l.
Proof.
  apply stable_sort_sorted_id, StronglySorted_Sorted, stable_sort_sorted.
Qed.

(** Two sorted lists that agree on every class of tied rows are equal:
    the sorted order and the order within ties fix the result. *)
Lemma sorted_ties_unique (l1 l2 : list A) :
  StronglySorted (goes_before before) l1 ->
  StronglySorted (goes_before before) l2 ->
  (forall z, filter (fun w => before z w && before w z) l1
             = filter (fun w => before z w && before w z) l2) ->
  l1 = l2.
Proof.
  assert (Hrefl : forall x, before x x = true)
    by (intros x; destruct (before_total x x); assumption).
  intros H1. revert l2.
  induction H1 as [|x l1 Hs1 IH Hx]; intros l2 H2 Hties.
  - destruct l2 as [|y l2]; [reflexivity|].
    specialize (Hties y). simpl in Hties. rewrite Hrefl in Hties.
    discriminate.
  - destruct l2 as [|y l2].
    { specialize (Hties x). simpl in Hties. rewrite Hrefl in Hties.
      discriminate. }
    apply StronglySorted_inv in H2. destruct H2 as (Hs2 & Hy).
    destruct (before x y && before y x) eqn:Exy.
    + pose proof (Hties x) as Hxx. simpl in Hxx.
      rewrite Hrefl, Exy in Hxx. simpl in Hxx.
      injection Hxx as <- _. f_equal. apply IH; [exact Hs2|].
      intros z. specialize (Hties z). simpl in Hties.
      destruct (before z x && before x z); [|exact Hties].
      now injection Hties.
    + exfalso.
      assert (Hin : In x (filter (fun w => before x w && before w x)
                            (y :: l2))).
      { rewrite <- (Hties x). simpl. rewrite Hrefl. now left. }
      apply filter_In in Hin. destruct Hin as ([->|Hin] & _).
      { rewrite Hrefl in Exy. discriminate. }
      rewrite Forall_forall in Hy. pose proof (Hy x Hin) as Hyx.
      unfold goes_before in Hyx. rewrite Hyx, andb_true_r in Exy.
      assert (Hw : In y (filter (fun w => before y w && before w y)
                           (x :: l1))).
      { rewrite (Hties y). simpl. rewrite Hrefl. now left. }
      apply filter_In in Hw. destruct Hw as ([->|Hw] & _).
      { rewrite Hrefl in Exy. discriminate. }
      rewrite Forall_forall in Hx. pose proof (Hx y Hw) as Hxy.
      unfold goes_before in Hxy. congruence.
Qed.

End StableSortFacts.

(** ** Small facts about the Python helpers *)

Lemma isin_In (x : string) (values : list string) :
  isin x values = true <-> In x values.
Proof.
  unfold isin. rewrite existsb_exists. split.
  - intros (y & Hy & E). apply String.eqb_eq in E. now subst.
  - intros H. exists x. split; [exact H | apply String.eqb_refl].
Qed.

Lemma truthy_false {A : Type} (xs : list A) : truthy xs = false <-> xs = [].
Proof. destruct xs; simpl; split; congruence. Qed.

Lemma len_nonneg {A : Type} (xs : list A) : 0 <= len xs.
Proof. unfold len. lia. Qed.

Lemma len_zero {A : Type} (xs : list A) : len xs = 0 <-> xs = [].
Proof.
  unfold len. destruct xs; simpl List.length; split; intros H;
    try reflexivity; try discriminate; lia.
Qed.

Lemma len_two (xs : list Z) :
  (len xs =? 2) = true <-> exists d0 d1, xs = [d0; d1].
Proof.
  unfold len. rewrite Z.eqb_eq. split.
  - destruct xs as [|d0 [|d1 [|d2 xs]]]; simpl; try lia.
    intros _. now exists d0, d1.
  - intros (d0 & d1 & ->). reflexivity.
Qed.

Lemma filter_twice {A : Type} (p q : A -> bool) (l : list A) :
  filter p (filter q l) = filter (fun x => q x && p x) l.
Proof.
  induction l as [|x l IH]; simpl; [reflexivity|].
  destruct (q x); simpl; [destruct (p x)|]; now rewrite IH.
Qed.

(** ** Filters *)

Lemma apply_filters_keeps (df : DataFrame) (f : Filters) :
  apply_filters df f = filter (keeps df f) (rows df).
Proof.
  unfold apply_filters, keeps.
  destruct (truthy (selected_teams f));
    destruct (has_Season df && truthy (selected_seasons f));
    destruct (has_MatchDate df && (len (date_range f) =? 2));
    simpl; rewrite ?filter_twice; apply filter_ext; intros r;
    destruct (team_mask f r), (season_mask f r), (goals_mask f r),
      (date_mask (nth 0 (date_range f) 0) (nth 1 (date_range f) 0) r);
    reflexivity.
Qed.

Lemma team_mask_spec (f : Filters) (r : Match) :
  negb (truthy (selected_teams f)) || team_mask f r = true <->
  passes_teams f r.
Proof.
  unfold passes_teams, team_mask.
  rewrite !orb_true_iff, negb_true_iff, truthy_false, !isin_In. tauto.
Qed.

Lemma season_mask_spec (df : DataFrame) (f : Filters) (r : Match) :
  negb (has_Season df && truthy (selected_seasons f)) || season_mask f r
  = true <-> passes_seasons df f r.
Proof.
  unfold passes_seasons, season_mask.
  rewrite orb_true_iff, negb_true_iff, andb_false_iff, truthy_false, isin_In.
  tauto.
Qed.

Lemma date_mask_spec (df : DataFrame) (f : Filters) (r : Match) :
  negb (has_MatchDate df && (len (date_range f) =? 2))
  || date_mask (nth 0 (date_range f) 0) (nth 1 (date_range f) 0) r = true
  <-> passes_dates df f r.
Proof.
  unfold passes_dates, date_mask.
  rewrite orb_true_iff, negb_true_iff, andb_false_iff, andb_true_iff,
    !Z.leb_le.
  destruct (len (date_range f) =? 2) eqn:E.
  - apply len_two in E. destruct E as (d0 & d1 & E). rewrite E. simpl.
    split.
    + intros [[H|H]|H]; [now left | discriminate |].
      right; right. now exists d0, d1.
    + intros [H|[H|(e0 & e1 & H & Hr)]]; [now left; left | congruence |].
      injection H as -> ->. now right.
  - assert (L : List.length (date_range f) <> 2%nat).
    { intros L. unfold len in E. rewrite L in E. discriminate. }
    split; intros _; [right; now left | left; now right].
Qed.

Lemma goals_mask_spec (f : Filters) (r : Match) :
  goals_mask f r = true <-> passes_goals f r.
Proof.
  unfold goals_mask, passes_goals, TotalGoals.
  rewrite andb_true_iff, !Z.leb_le. tauto.
Qed.

Lemma keeps_satisfies (df : DataFrame) (f : Filters) (r : Match) :
  keeps df f r = true <-> satisfies df f r.
Proof.
  unfold keeps, satisfies.
  rewrite !andb_true_iff, team_mask_spec, season_mask_spec, date_mask_spec,
    goals_mask_spec.
  tauto.
Qed.

(** C1.  The filtered frame holds exactly the records of the loaded frame
    that satisfy every active predicate (team, season, date range, total
    goals), an empty or absent dimension constraining nothing: it is the
    loaded frame restricted to those records, in the same order, so every
    kept record satisfies the predicates and none that satisfies them is
    dropped.  On the two sample matches the goals range (3, 10) keeps the
    first match only. *)
Theorem apply_filters_exact :
  (forall (df : DataFrame) (f : Filters),
     apply_filters df f = filter (keeps df f) (rows df) /\
     forall r : Match,
       (keeps df f r = true <-> satisfies df f r) /\
       (In r (apply_filters df f) <-> In r (rows df) /\ satisfies df f r)) /\
  apply_filters sample_df (mkFilters [] [] [] 3 10) = [sample_match_1].
Proof.
  split; [|reflexivity].
  intros df f. split; [apply apply_filters_keeps|].
  intros r. split; [apply keeps_satisfies|].
  rewrite apply_filters_keeps, filter_In, keeps_satisfies. tauto.
Qed.

(** ** League table: the aggregation loop *)

Lemma league_table_loop_app (filtered_df : list Match)
  (teams : list string) (acc : list Standing) :
  league_table_loop filtered_df teams acc =
  acc ++ flat_map
           (fun team =>
              match team_standing filtered_df team with
              | Some row => [row]
              | None => []
              end) teams.
Proof.
  revert acc. induction teams as [|team rest IH]; intros acc; simpl.
  - now rewrite app_nil_r.
  - destruct (team_standing filtered_df team) as [row|]; rewrite IH.
    + now rewrite <- app_assoc.
    + reflexivity.
Qed.

Lemma In_league_table (filtered_df : list Match) (teams : list string)
  (row : Standing) :
  In row (league_table filtered_df teams) <->
  exists team, In team teams /\ team_standing filtered_df team = Some row.
Proof.
  unfold league_table. rewrite league_table_loop_app. simpl.
  rewrite in_flat_map. split; intros (team & Hin & H); exists team;
    (split; [exact Hin|]).
  - destruct (team_standing filtered_df team) as [row'|];
      simpl in H; [|contradiction].
    destruct H as [->|[]]. reflexivity.
  - rewrite H. now left.
Qed.

Lemma team_standing_Some (filtered_df : list Match) (team : string)
  (row : Standing) :
  team_standing filtered_df team = Some row ->
  Team row = team /\ standing_invariant row /\
  Played row =
    len (filter (home_of team) filtered_df)
    + len (filter (away_of team) filtered_df) /\
  Played row <> 0.
Proof.
  unfold team_standing, standing_invariant.
  destruct (_ =? 0) eqn:E; [discriminate|].
  apply Z.eqb_neq in E. intros H. injection H as <-. simpl.
  repeat split; try assumption; lia.
Qed.

Lemma filter_none {A : Type} (p : A -> bool) (l : list A) :
  (forall x, In x l -> p x = false) -> filter p l = [].
Proof.
  induction l as [|x l IH]; intros H; simpl; [reflexivity|].
  rewrite (H x) by now left. apply IH. intros y Hy. apply H. now right.
Qed.

Lemma no_match_no_standing (filtered_df : list Match) (team : string) :
  (forall m, In m filtered_df -> ~ plays_in team m) ->
  team_standing filtered_df team = None.
Proof.
  intros Hno.
  assert (Hh : filter (home_of team) filtered_df = []).
  { apply filter_none. intros m Hm. apply not_true_is_false. intros E.
    apply String.eqb_eq in E. apply (Hno m Hm). now left. }
  assert (Ha : filter (away_of team) filtered_df = []).
  { apply filter_none. intros m Hm. apply not_true_is_false. intros E.
    apply String.eqb_eq in E. apply (Hno m Hm). now right. }
  unfold team_standing. now rewrite Hh, Ha.
Qed.

(** ** League table: ranking and positions *)

Lemma rank_before_spec (x y : Standing) :
  rank_before x y = true <-> ranked_before x y.
Proof.
  unfold rank_before, ranked_before.
  rewrite orb_true_iff, andb_true_iff, Z.ltb_lt, Z.eqb_eq, Z.leb_le.
  tauto.
Qed.

Lemma rank_before_total (x y : Standing) :
  rank_before x y = true \/ rank_before y x = true.
Proof. rewrite !rank_before_spec. unfold ranked_before. lia. Qed.

Lemma rank_before_trans (x y z : Standing) :
  rank_before x y = true -> rank_before y z = true ->
  rank_before x z = true.
Proof. rewrite !rank_before_spec. unfold ranked_before. lia. Qed.

Lemma same_rank_tie (p g : Z) (x y : Standing) :
  same_rank p g x = true -> same_rank p g y = true ->
  rank_before x y = true.
Proof.
  unfold same_rank. rewrite !andb_true_iff, !Z.eqb_eq, rank_before_spec.
  unfold ranked_before. lia.
Qed.

Lemma StronglySorted_ranked (l : list Standing) :
  StronglySorted (goes_before rank_before) l <->
  StronglySorted ranked_before l.
Proof.
  split; induction 1 as [|x l Hs IH Hx]; constructor; try exact IH;
    (eapply Forall_impl; [|exact Hx]); intros y; apply rank_before_spec.
Qed.

Lemma rank_tie_same_rank (z w : Standing) :
  rank_before z w && rank_before w z = same_rank (Points z) (GD z) w.
Proof.
  unfold rank_before, same_rank.
  destruct (Z.ltb_spec (Points w) (Points z));
    destruct (Z.ltb_spec (Points z) (Points w));
    destruct (Z.eqb_spec (Points z) (Points w));
    destruct (Z.eqb_spec (Points w) (Points z));
    destruct (Z.leb_spec (GD w) (GD z));
    destruct (Z.leb_spec (GD z) (GD w));
    destruct (Z.eqb_spec (GD w) (GD z));
    simpl; try reflexivity; lia.
Qed.

Lemma sort_values_Ok (league_table : list Standing) :
  league_table <> [] ->
  sort_values league_table = Ok (stable_sort rank_before league_table).
Proof. destruct league_table; [congruence | reflexivity]. Qed.

Lemma set_Position_cons (r : Standing) (l : list Standing) (v : Z)
  (values : list Z) :
  set_Position (r :: l) (v :: values)
  = with_Position r v :: set_Position l values.
Proof. reflexivity. Qed.

Lemma range_from (start : Z) (n : nat) :
  range start (start + Z.of_nat n)
  = map (fun i => start + Z.of_nat i) (seq 0 n).
Proof.
  unfold range. replace (start + Z.of_nat n - start) with (Z.of_nat n) by lia.
  now rewrite Nat2Z.id.
Qed.

Lemma range_cons (start : Z) (n : nat) :
  range start (start + Z.of_nat (S n))
  = start :: range (start + 1) (start + 1 + Z.of_nat n).
Proof.
  rewrite !range_from. simpl. f_equal; [lia|].
  rewrite <- seq_shift, map_map. apply map_ext. intros i. lia.
Qed.

Lemma nth_error_set_Position (l : list Standing) (start : Z) (i : nat) :
  nth_error (set_Position l (range start (start + Z.of_nat (List.length l)))) i
  = option_map (fun r => with_Position r (start + Z.of_nat i))
      (nth_error l i).
Proof.
  revert start i. induction l as [|r l IH]; intros start i.
  - destruct i; reflexivity.
  - simpl List.length. rewrite range_cons, set_Position_cons.
    destruct i as [|i]; simpl nth_error.
    + simpl. do 2 f_equal. lia.
    + rewrite IH. destruct (nth_error l i); simpl; [|reflexivity].
      do 2 f_equal. lia.
Qed.

Lemma map_set_Position {B : Type} (g : Standing -> B) (l : list Standing)
  (start : Z) :
  (forall r p, g (with_Position r p) = g r) ->
  map g (set_Position l (range start (start + Z.of_nat (List.length l))))
  = map g l.
Proof.
  intros Hg. revert start. induction l as [|r l IH]; intros start.
  - reflexivity.
  - simpl List.length. rewrite range_cons, set_Position_cons. simpl.
    now rewrite Hg, IH.
Qed.

Lemma map_Position_set_Position (l : list Standing) (start : Z) :
  map Position
    (set_Position l (range start (start + Z.of_nat (List.length l))))
  = range start (start + Z.of_nat (List.length l)).
Proof.
  revert start. induction l as [|r l IH]; intros start.
  - rewrite range_from. reflexivity.
  - simpl List.length. rewrite range_cons, set_Position_cons. simpl.
    now rewrite IH.
Qed.

Lemma range_one (n : nat) :
  range 1 (Z.of_nat n + 1) = map Z.of_nat (seq 1 n).
Proof.
  rewrite Z.add_comm, range_from, <- seq_shift, map_map.
  apply map_ext. intros i. lia.
Qed.

Lemma league_df_Ok (league_table : list Standing) :
  league_table <> [] ->
  league_df league_table =
  Ok (set_Position (stable_sort rank_before league_table)
        (range 1 (1 + Z.of_nat (List.length
                                  (stable_sort rank_before league_table))))).
Proof.
  intros H. unfold league_df. rewrite sort_values_Ok by exact H.
  cbn [bind]. do 3 f_equal. unfold len. lia.
Qed.

Lemma league_df_Raise (league_table : list Standing) (e : exn) :
  league_df league_table = Raise e -> league_table = [].
Proof. destruct league_table; [reflexivity | discriminate]. Qed.

(** Every row of the ranked table is a row of the aggregated table with
    its position filled in. *)
Lemma league_df_row_origin (league_table out : list Standing)
  (x : Standing) :
  league_df league_table = Ok out -> In x out ->
  exists r p, In r league_table /\ x = with_Position r p.
Proof.
  intros Hdf Hx.
  assert (Hne : league_table <> []) by (intros ->; discriminate).
  rewrite league_df_Ok in Hdf by exact Hne. injection Hdf as <-.
  apply In_nth_error in Hx. destruct Hx as (i & Hi).
  rewrite nth_error_set_Position in Hi.
  destruct (nth_error (stable_sort rank_before league_table) i) as [r|] eqn:E;
    [|discriminate].
  injection Hi as <-. exists r, (1 + Z.of_nat i). split; [|reflexivity].
  apply nth_error_In in E.
  eapply Permutation_in; [|exact E].
  apply Permutation_sym, stable_sort_perm.
Qed.

Lemma Forall_league_df (P : Standing -> Prop)
  (league_table out : list Standing) :
  (forall r p, P r -> P (with_Position r p)) ->
  Forall P league_table -> league_df league_table = Ok out -> Forall P out.
Proof.
  intros HP Hall Hdf. apply Forall_forall. intros x Hx.
  destruct (league_df_row_origin _ _ _ Hdf Hx) as (r & p & Hr & ->).
  apply HP. rewrite Forall_forall in Hall. now apply Hall.
Qed.

(** C2.  Every row the aggregation builds, and every row of the ranked
    table made from them, has wins + draws + losses = played and
    points = 3 * wins + draws.  On the two sample matches team A has
    played 2, won 1, drawn 1, lost 0, scored 2, conceded 1, 4 points. *)
Theorem standing_rows_invariant :
  (forall (filtered_df : list Match) (teams : list string),
     Forall standing_invariant (league_table filtered_df teams) /\
     match league_df (league_table filtered_df teams) with
     | Ok out => Forall standing_invariant out
     | Raise _ => league_table filtered_df teams = []
     end) /\
  map (fun s => (Team s, Played s, Wins s, Draws s, Losses s,
                 GF s, GA s, Points s))
    (league_table [sample_match_1; sample_match_2] ["A"])
  = [("A", 2, 1, 1, 0, 2, 1, 4)].
Proof.
  split; [|reflexivity].
  intros filtered_df teams.
  assert (Hall : Forall standing_invariant (league_table filtered_df teams)).
  { apply Forall_forall. intros row Hrow.
    apply In_league_table in Hrow. destruct Hrow as (team & _ & Hrow).
    now apply team_standing_Some in Hrow. }
  split; [exact Hall|].
  destruct (league_df (league_table filtered_df teams)) as [out|e] eqn:E.
  - eapply Forall_league_df; [|exact Hall|exact E].
    intros r p Hr. exact Hr.
  - eapply league_df_Raise, E.
Qed.

(** C8.  A team without any match in the filtered frame has no row in the
    league table: neither in the aggregated rows nor in the ranked table,
    whatever teams are asked for. *)
Theorem team_without_match_excluded
  (filtered_df : list Match) (teams : list string) (team : string) :
  (forall m, In m filtered_df -> ~ plays_in team m) ->
  ~ In team (map Team (league_table filtered_df teams)) /\
  forall out, league_df (league_table filtered_df teams) = Ok out ->
              ~ In team (map Team out).
Proof.
  intros Hno.
  assert (Hall : Forall (fun s => Team s <> team)
                   (league_table filtered_df teams)).
  { apply Forall_forall. intros row Hrow Heq.
    apply In_league_table in Hrow. destruct Hrow as (t & _ & Hrow).
    pose proof (team_standing_Some _ _ _ Hrow) as (Ht & _).
    rewrite Heq in Ht. subst t.
    rewrite (no_match_no_standing _ _ Hno) in Hrow. discriminate. }
  split.
  - intros Hin. apply in_map_iff in Hin. destruct Hin as (s & Hs & Hin).
    rewrite Forall_forall in Hall. exact (Hall s Hin Hs).
  - intros out Hdf Hin. apply in_map_iff in Hin.
    destruct Hin as (s & Hs & Hin).
    assert (Hout : Forall (fun s => Team s <> team) out).
    { eapply Forall_league_df; [|exact Hall|exact Hdf].
      intros r p Hr. exact Hr. }
    rewrite Forall_forall in Hout. exact (Hout s Hin Hs).
Qed.

(** A team that never plays in the sample matches gets no row. *)
Lemma team_without_match_excluded_sample :
  ~ In "C" (map Team (league_table [sample_match_1; sample_match_2]
                        ["A"; "B"; "C"])) /\
  forall out,
    league_df (league_table [sample_match_1; sample_match_2]
                 ["A"; "B"; "C"]) = Ok out ->
    ~ In "C" (map Team out).
Proof.
  apply (team_without_match_excluded
           [sample_match_1; sample_match_2] ["A"; "B"; "C"] "C").
  intros m [<-|[<-|[]]]; intros [H|H]; discriminate H.
Defined.

(** C3.  Whenever the table has a row, [sort_values] returns its rows
    rearranged in descending order of points and then of goal difference,
    rows that tie on both keys standing in their input order (for each
    pair of key values the tied rows are the same list before and after),
    whatever their other columns.  The result is the only arrangement
    with these properties, and sorting it again changes nothing.  Rows
    tied on points and goal difference keep their input order although
    the later one has scored more. *)
Theorem sort_values_stable :
  (forall league_table : list Standing,
     match sort_values league_table with
     | Ok sorted =>
         Permutation league_table sorted /\
         StronglySorted ranked_before sorted /\
         (forall p g : Z,
            filter (same_rank p g) sorted
            = filter (same_rank p g) league_table) /\
         (forall other : list Standing,
            StronglySorted ranked_before other ->
            (forall p g : Z,
               filter (same_rank p g) other
               = filter (same_rank p g) league_table) ->
            other = sorted) /\
         sort_values sorted = Ok sorted
     | Raise _ => league_table = []
     end) /\
  sort_values
    [mkStanding 0 "X" 1 1 0 0 1 0 1 3 (fin 3);
     mkStanding 0 "Y" 1 1 0 0 5 4 1 3 (fin 3);
     mkStanding 0 "Z" 1 1 0 0 3 1 2 3 (fin 3)]
  = Ok [mkStanding 0 "Z" 1 1 0 0 3 1 2 3 (fin 3);
        mkStanding 0 "X" 1 1 0 0 1 0 1 3 (fin 3);
        mkStanding 0 "Y" 1 1 0 0 5 4 1 3 (fin 3)].
Proof.
  split; [|reflexivity].
  intros league_table.
  destruct league_table as [|r l] eqn:E; [reflexivity|].
  rewrite <- E.
  assert (Hne : league_table <> []) by (rewrite E; discriminate).
  rewrite sort_values_Ok by exact Hne.
  assert (Hsorted : StronglySorted (goes_before rank_before)
                      (stable_sort rank_before league_table))
    by (apply stable_sort_sorted;
        [apply rank_before_total | apply rank_before_trans]).
  assert (Hstable : forall p g : Z,
             filter (same_rank p g) (stable_sort rank_before league_table)
             = filter (same_rank p g) league_table)
    by (intros p g; apply filter_stable_sort, same_rank_tie).
  split; [apply stable_sort_perm|].
  split; [now apply StronglySorted_ranked|].
  split; [exact Hstable|]. split.
  - intros other Hother Hties.
    apply (sorted_ties_unique rank_before rank_before_total);
      [now apply StronglySorted_ranked | exact Hsorted |].
    intros z.
    rewrite (filter_ext _ _ (rank_tie_same_rank z) other).
    rewrite (filter_ext _ _ (rank_tie_same_rank z)
               (stable_sort rank_before league_table)).
    now rewrite Hties, Hstable.
  - rewrite sort_values_Ok.
    + f_equal. apply stable_sort_idempotent;
        [apply rank_before_total | apply rank_before_trans].
    + intros Hnil. apply Hne.
      apply Permutation_nil. rewrite <- Hnil.
      apply Permutation_sym, stable_sort_perm.
Qed.

(** C10.  The ranked table has as many rows as the aggregated one, its
    Position column reads 1, 2, ..., n from the top, and the row at index
    i is the i-th row of the sorted order with position i + 1; so the
    positions are pairwise distinct and lie between 1 and n. *)
Theorem league_df_positions :
  forall league_table : list Standing,
    match league_df league_table with
    | Ok out =>
        List.length out = List.length league_table /\
        map Position out = map Z.of_nat (seq 1 (List.length out)) /\
        (forall (i : nat) (r : Standing),
           nth_error (stable_sort rank_before league_table) i = Some r ->
           nth_error out i = Some (with_Position r (Z.of_nat i + 1))) /\
        NoDup (map Position out) /\
        Forall (fun s => 1 <= Position s <= len out) out
    | Raise _ => league_table = []
    end.
Proof.
  intros league_table.
  destruct (league_df league_table) as [out|e] eqn:E;
    [|eapply league_df_Raise, E].
  assert (Hne : league_table <> []) by (intros ->; discriminate).
  rewrite league_df_Ok in E by exact Hne. injection E as E.
  set (sorted := stable_sort rank_before league_table) in *.
  assert (Hlen : List.length out = List.length sorted).
  { rewrite <- (length_map Position out), <- E, map_Position_set_Position.
    rewrite range_from. now rewrite length_map, length_seq. }
  assert (Hpos : map Position out = map Z.of_nat (seq 1 (List.length out))).
  { rewrite <- E at 1. rewrite map_Position_set_Position.
    rewrite Hlen, Z.add_comm. apply range_one. }
  split; [|split; [exact Hpos | split; [|split]]].
  - rewrite Hlen. symmetry. apply Permutation_length, stable_sort_perm.
  - intros i r Hi. rewrite <- E, nth_error_set_Position, Hi.
    rewrite (Z.add_comm 1). reflexivity.
  - rewrite Hpos. apply Injective_map_NoDup; [|apply seq_NoDup].
    intros a b. apply Nat2Z.inj.
  - apply Forall_forall. intros s Hs.
    assert (Hin : In (Position s) (map Position out))
      by now apply in_map.
    rewrite Hpos in Hin. apply in_map_iff in Hin.
    destruct Hin as (k & <- & Hk). apply in_seq in Hk. unfold len. lia.
Qed.

(** ** Outcome predictor *)

Lemma Series_mean_average (xs : list Z) :
  xs <> [] -> Series_mean xs = fin (average xs).
Proof. destruct xs; [congruence | reflexivity]. Qed.

Lemma len_pos {A : Type} (xs : list A) : (0 <? len xs) = true <-> xs <> [].
Proof.
  rewrite Z.ltb_lt. pose proof (len_nonneg xs). pose proof (len_zero xs).
  split.
  - intros H1 H2. apply H0 in H2. lia.
  - intros H1. destruct (Z.eq_dec (len xs) 0) as [E|E]; [|lia].
    apply H0 in E. contradiction.
Qed.

Lemma filter_nonempty {A : Type} (p : A -> bool) (l : list A) :
  filter p l <> [] <-> exists x, In x l /\ p x = true.
Proof.
  split.
  - intros H. destruct (filter p l) as [|x l'] eqn:E; [congruence|].
    exists x. apply filter_In. rewrite E. now left.
  - intros (x & Hx & Hp) E.
    assert (Hin : In x (filter p l)) by (apply filter_In; now split).
    rewrite E in Hin. contradiction.
Qed.

Lemma home_data_nonempty (filtered_df : list Match) (team : string) :
  filter (home_of team) filtered_df <> [] <->
  exists m, home_fixture filtered_df team m.
Proof.
  rewrite filter_nonempty. unfold home_fixture, home_of.
  split; intros (m & Hm & E); exists m; (split; [exact Hm|]);
    now apply String.eqb_eq.
Qed.

Lemma away_data_nonempty (filtered_df : list Match) (team : string) :
  filter (away_of team) filtered_df <> [] <->
  exists m, away_fixture filtered_df team m.
Proof.
  rewrite filter_nonempty. unfold away_fixture, away_of.
  split; intros (m & Hm & E); exists m; (split; [exact Hm|]);
    now apply String.eqb_eq.
Qed.

(** The expected goals the predictor reports. *)
Lemma py_max_zero (g : Q) :
  exists e, py_max (of_int 0) (fin g) = fin e /\ (0 <= e)%Q /\
            (e == Qmax 0 g)%Q.
Proof.
  unfold py_max, fgt, flt, of_int.
  destruct (Qlt_le_dec (inject_Z 0) g) as [H|H].
  - exists g. split; [reflexivity|]. change (inject_Z 0) with 0%Q in H.
    split; [now apply Qlt_le_weak|].
    symmetry. apply Q.max_r. now apply Qlt_le_weak.
  - exists (inject_Z 0). split; [reflexivity|].
    change (inject_Z 0) with 0%Q in *.
    split; [apply Qle_refl|]. symmetry. now apply Q.max_l.
Qed.

(** The confidence of a decisive outcome. *)
Lemma py_min_95 (x : Q) :
  exists c, py_min (of_int 95) (fin x) = fin c /\ (c == Qmin 95 x)%Q.
Proof.
  unfold py_min, flt, of_int.
  destruct (Qlt_le_dec x (inject_Z 95)) as [H|H];
    change (inject_Z 95) with 95%Q in *.
  - exists x. split; [reflexivity|].
    symmetry. apply Q.min_r. now apply Qlt_le_weak.
  - exists 95%Q. split; [reflexivity|]. symmetry. now apply Q.min_l.
Qed.

(** The three branches of lines 310-318 on two finite strengths. *)
Lemma prediction_logic_cases (h a : Q) :
  ((a + (1 # 2) < h)%Q /\
   prediction_logic (fin h) (fin a) =
   ("Home Win", py_min (of_int 95) (fin (60 + Qabs (h - a) * 10)%Q))) \/
  (~ (a + (1 # 2) < h)%Q /\ (h + (1 # 2) < a)%Q /\
   prediction_logic (fin h) (fin a) =
   ("Away Win", py_min (of_int 95) (fin (60 + Qabs (a - h) * 10)%Q))) \/
  (~ (a + (1 # 2) < h)%Q /\ ~ (h + (1 # 2) < a)%Q /\
   prediction_logic (fin h) (fin a) = ("Draw", fin 50)).
Proof.
  unfold prediction_logic, fgt, fadd, flt, lift2.
  destruct (Qlt_le_dec (a + (1 # 2)) h) as [H1|H1].
  - left. split; [exact H1 | reflexivity].
  - right. destruct (Qlt_le_dec (h + (1 # 2)) a) as [H2|H2].
    + left. split; [now apply Qle_not_lt|]. split; [exact H2 | reflexivity].
    + right. split; [now apply Qle_not_lt|].
      split; [now apply Qle_not_lt | reflexivity].
Qed.

Lemma predict_match_outcome_Metrics (filtered_df : list Match)
  (home_team away_team : string) :
  filter (home_of home_team) filtered_df <> [] ->
  filter (away_of away_team) filtered_df <> [] ->
  predict_match_outcome filtered_df home_team away_team =
  Metrics
    (fst (prediction_logic (fin (homeStrength filtered_df home_team))
            (fin (awayStrength filtered_df away_team))))
    (snd (prediction_logic (fin (homeStrength filtered_df home_team))
            (fin (awayStrength filtered_df away_team))))
    (py_max (of_int 0)
       (fin ((average (map FullTimeHomeGoals
                         (filter (home_of home_team) filtered_df))
              + average (map FullTimeAwayGoals
                           (filter (away_of away_team) filtered_df)))
             / 2)%Q)).
Proof.
  intros Hh Ha. unfold predict_match_outcome.
  rewrite (proj2 (len_pos _) Hh), (proj2 (len_pos _) Ha). cbn [andb].
  assert (Hmap : forall (g : Match -> Z) (l : list Match),
             l <> [] -> map g l <> []).
  { intros g [|x l] H; [congruence | discriminate]. }
  rewrite !Series_mean_average by now apply Hmap.
  reflexivity.
Qed.

Lemma predict_match_outcome_Warning (filtered_df : list Match)
  (home_team away_team : string) :
  filter (home_of home_team) filtered_df = [] \/
  filter (away_of away_team) filtered_df = [] ->
  predict_match_outcome filtered_df home_team away_team
  = Warning not_enough_data.
Proof.
  intros [H|H]; unfold predict_match_outcome; rewrite H; simpl;
    rewrite ?andb_false_r; reflexivity.
Qed.

Lemma nonempty_dec {A : Type} (l : list A) : {l = []} + {l <> []}.
Proof. destruct l; [now left | right; discriminate]. Qed.

(** ** Binary64 rounding

    Facts about [binary_round], the rounding to nearest (ties to even) of
    [mantissa * 2 ^ exponent] to binary64 that addition, subtraction and
    multiplication end with: it never falls below a binary64 number that
    the exact value reaches, never rises above one that bounds it, keeps
    the sign and is blind to it for the magnitude. *)

Lemma digits2_pos_size (p : positive) : digits2_pos p = Pos.size p.
Proof. induction p; simpl; congruence. Qed.

Lemma digits2_pos_bounds (p : positive) :
  2 ^ (Z.pos (digits2_pos p) - 1) <= Z.pos p < 2 ^ Z.pos (digits2_pos p).
Proof.
  induction p as [p IH|p IH|]; cbn [digits2_pos].
  - rewrite Pos2Z.inj_succ.
    replace (Z.succ (Z.pos (digits2_pos p)) - 1)
      with (Z.succ (Z.pos (digits2_pos p) - 1)) by lia.
    rewrite !Z.pow_succ_r by lia. lia.
  - rewrite Pos2Z.inj_succ.
    replace (Z.succ (Z.pos (digits2_pos p)) - 1)
      with (Z.succ (Z.pos (digits2_pos p) - 1)) by lia.
    rewrite !Z.pow_succ_r by lia. lia.
  - simpl. lia.
Qed.

Lemma shr_1_spec (mrs : shr_record) :
  0 <= shr_m mrs ->
  shr_m (shr_1 mrs) = shr_m mrs / 2 /\
  (shr_r mrs = false -> shr_s mrs = false -> shr_m mrs mod 2 = 0 ->
   shr_r (shr_1 mrs) = false /\ shr_s (shr_1 mrs) = false).
Proof.
  destruct mrs as [m r s]. cbn [shr_m shr_r shr_s]. intros Hm.
  destruct m as [|[p|p|]|p]; cbn [shr_1 shr_m shr_r shr_s]; try lia.
  - split; [reflexivity|]. now intros -> ->.
  - split.
    + rewrite Pos2Z.inj_xI.
      apply (Z.div_unique _ _ _ 1); lia.
    + intros _ _ H. rewrite Pos2Z.inj_xI in H.
      rewrite Z.add_comm, Z.mul_comm, Z.mod_add in H by lia. discriminate.
  - split.
    + rewrite Pos2Z.inj_xO.
      apply (Z.div_unique _ _ _ 0); lia.
    + now intros -> ->.
  - split; [reflexivity|]. intros _ _ H. discriminate.
Qed.

Lemma iter_pos_shr_1 (p : positive) (mrs : shr_record) :
  0 <= shr_m mrs ->
  shr_m (iter_pos shr_1 p mrs) = shr_m mrs / 2 ^ Z.pos p /\
  (shr_r mrs = false -> shr_s mrs = false ->
   shr_m mrs mod 2 ^ Z.pos p = 0 ->
   shr_r (iter_pos shr_1 p mrs) = false /\
   shr_s (iter_pos shr_1 p mrs) = false).
Proof.
  assert (Hdiv : forall m a b, 0 <= a -> 0 <= b ->
             m mod 2 ^ (a + b) = 0 ->
             m mod 2 ^ a = 0 /\ (m / 2 ^ a) mod 2 ^ b = 0).
  { intros m a b Ha Hb H. rewrite Z.pow_add_r in H by lia.
    assert (Ha' : 0 < 2 ^ a) by (apply Z.pow_pos_nonneg; lia).
    assert (Hb' : 0 < 2 ^ b) by (apply Z.pow_pos_nonneg; lia).
    apply Z.mod_divide in H; [|lia]. destruct H as (q & ->).
    split.
    - apply Z.mod_divide; [lia|]. exists (q * 2 ^ b). lia.
    - replace (q * (2 ^ a * 2 ^ b)) with (q * 2 ^ b * 2 ^ a) by lia.
      rewrite Z.div_mul by lia. apply Z.mod_mul. lia. }
  revert mrs. induction p as [p IH|p IH|]; intros mrs Hm.
  - cbn [iter_pos].
    destruct (shr_1_spec mrs Hm) as (M1 & F1).
    assert (H1 : 0 <= shr_m (shr_1 mrs))
      by (rewrite M1; apply Z.div_pos; lia).
    destruct (IH (shr_1 mrs) H1) as (M2 & F2).
    assert (H2 : 0 <= shr_m (iter_pos shr_1 p (shr_1 mrs)))
      by (rewrite M2; apply Z.div_pos; [lia | apply Z.pow_pos_nonneg; lia]).
    destruct (IH _ H2) as (M3 & F3).
    split.
    + assert (Hpow : 2 ^ Z.pos p~1 = 2 * 2 ^ Z.pos p * 2 ^ Z.pos p).
      { replace (Z.pos p~1) with (1 + Z.pos p + Z.pos p) by lia.
        rewrite !Z.pow_add_r by lia. reflexivity. }
      rewrite Hpow, M3, M2, M1, !Z.div_div
        by (try apply Z.pow_pos_nonneg; lia).
      f_equal. lia.
    + intros Hr Hs Hmod.
      replace (Z.pos p~1) with (1 + (Z.pos p + Z.pos p)) in Hmod by lia.
      apply Hdiv in Hmod; [|lia|lia]. destruct Hmod as (Hm1 & Hm2).
      apply Hdiv in Hm2; [|lia|lia]. destruct Hm2 as (Hm2 & Hm3).
      change (2 ^ 1) with 2 in *.
      destruct (F1 Hr Hs Hm1) as (Hr1 & Hs1).
      rewrite <- M1 in Hm2, Hm3.
      destruct (F2 Hr1 Hs1 Hm2) as (Hr2 & Hs2).
      rewrite <- M2 in Hm3. exact (F3 Hr2 Hs2 Hm3).
  - cbn [iter_pos].
    destruct (IH mrs Hm) as (M2 & F2).
    assert (H2 : 0 <= shr_m (iter_pos shr_1 p mrs))
      by (rewrite M2; apply Z.div_pos; [lia | apply Z.pow_pos_nonneg; lia]).
    destruct (IH _ H2) as (M3 & F3).
    split.
    + assert (Hpow : 2 ^ Z.pos p~0 = 2 ^ Z.pos p * 2 ^ Z.pos p).
      { replace (Z.pos p~0) with (Z.pos p + Z.pos p) by lia.
        rewrite Z.pow_add_r by lia. reflexivity. }
      rewrite Hpow, M3, M2, !Z.div_div
        by (try apply Z.pow_pos_nonneg; lia).
      f_equal.
    + intros Hr Hs Hmod.
      replace (Z.pos p~0) with (Z.pos p + Z.pos p) in Hmod by lia.
      apply Hdiv in Hmod; [|lia|lia]. destruct Hmod as (Hm2 & Hm3).
      destruct (F2 Hr Hs Hm2) as (Hr2 & Hs2).
      rewrite <- M2 in Hm3. exact (F3 Hr2 Hs2 Hm3).
  - cbn [iter_pos]. change (2 ^ 1) with 2. apply shr_1_spec, Hm.
Qed.

Lemma fexp64_eq (z : Z) : fexp prec emax z = Z.max (z - 53) (-1074).
Proof. reflexivity. Qed.

Lemma Zdigits2_bounds (m : Z) :
  0 < m -> 0 < Zdigits2 m /\ 2 ^ (Zdigits2 m - 1) <= m < 2 ^ Zdigits2 m.
Proof.
  destruct m as [|p|p]; try lia. intros _. cbn [Zdigits2].
  split; [lia | apply digits2_pos_bounds].
Qed.

Lemma Zdigits2_le (m k : Z) : 0 <= m < 2 ^ k -> 0 <= k -> Zdigits2 m <= k.
Proof.
  intros (H0 & Hk) Hk0. destruct (Z.eq_dec m 0) as [->|Hne]; [simpl; lia|].
  destruct (Zdigits2_bounds m ltac:(lia)) as (Hd & Hlo & _).
  destruct (Z.le_gt_cases (Zdigits2 m) k) as [H|H]; [exact H|].
  exfalso.
  assert (2 ^ k <= 2 ^ (Zdigits2 m - 1))
    by (apply Z.pow_le_mono_r; lia).
  lia.
Qed.

Lemma round_nearest_even_bounds (m : Z) (l : location) :
  m <= round_nearest_even m l <= m + 1 /\
  (l = loc_Exact -> round_nearest_even m l = m).
Proof.
  destruct l as [|[| |]]; cbn [round_nearest_even];
    try (split; [lia | congruence]).
  destruct (Z.even m); split; try lia; congruence.
Qed.

Lemma shr_fexp_spec (m e : Z) :
  0 <= m ->
  let k := Z.max 0 (fexp prec emax (Zdigits2 m + e) - e) in
  exists mrs,
    shr_fexp prec emax m e loc_Exact = (mrs, e + k) /\
    shr_m mrs = m / 2 ^ k /\
    (m mod 2 ^ k = 0 -> loc_of_shr_record mrs = loc_Exact).
Proof.
  intros Hm k. unfold shr_fexp, shr. cbn [shr_record_of_loc].
  subst k. destruct (fexp prec emax (Zdigits2 m + e) - e) as [|p|p] eqn:E.
  - exists (Build_shr_record m false false). cbn [shr_m Z.max].
    rewrite Z.add_0_r, Z.div_1_r. repeat split.
  - exists (iter_pos shr_1 p (Build_shr_record m false false)).
    replace (Z.max 0 (Z.pos p)) with (Z.pos p) by lia.
    destruct (iter_pos_shr_1 p (Build_shr_record m false false) Hm)
      as (Hdiv & Hflags).
    cbn [shr_m shr_r shr_s] in *. repeat split; [exact Hdiv|].
    intros Hmod. destruct (Hflags eq_refl eq_refl Hmod) as (Hr & Hs).
    destruct (iter_pos shr_1 p _) as [m' r' s']. cbn in *. now subst.
  - exists (Build_shr_record m false false). cbn [shr_m].
    replace (Z.max 0 (Z.neg p)) with 0 by lia.
    rewrite Z.add_0_r, Z.div_1_r. repeat split.
Qed.

(** What [binary_round_aux] computes on an exact positive mantissa. *)
Lemma binary_round_aux_spec (s : bool) (M : positive) (E : Z) :
  exists m1 k1 k2 : Z,
    k1 = Z.max 0 (fexp prec emax (Z.pos (digits2_pos M) + E) - E) /\
    Z.pos M / 2 ^ k1 <= m1 <= Z.pos M / 2 ^ k1 + 1 /\
    (Z.pos M mod 2 ^ k1 = 0 -> m1 = Z.pos M / 2 ^ k1) /\
    k2 = Z.max 0 (fexp prec emax (Zdigits2 m1 + (E + k1)) - (E + k1)) /\
    binary_round_aux prec emax s (Z.pos M) E loc_Exact =
    match m1 / 2 ^ k2 with
    | Z0 => S754_zero s
    | Z.pos m =>
        if E + k1 + k2 <=? emax - prec
        then S754_finite s m (E + k1 + k2) else S754_infinity s
    | Z.neg _ => S754_nan
    end.
Proof.
  destruct (shr_fexp_spec (Z.pos M) E ltac:(lia)) as (mrs1 & E1 & D1 & L1).
  cbn [Zdigits2] in E1, D1, L1.
  set (k1 := Z.max 0 (fexp prec emax (Z.pos (digits2_pos M) + E) - E)) in *.
  set (m1 := round_nearest_even (shr_m mrs1) (loc_of_shr_record mrs1)).
  assert (Hk1 : 0 <= k1) by (subst k1; lia).
  assert (Hm' : 0 <= Z.pos M / 2 ^ k1)
    by (apply Z.div_pos; [lia | apply Z.pow_pos_nonneg; lia]).
  destruct (round_nearest_even_bounds (shr_m mrs1) (loc_of_shr_record mrs1))
    as (B1 & X1). fold m1 in B1, X1. rewrite D1 in B1, X1.
  destruct (shr_fexp_spec m1 (E + k1) ltac:(lia)) as (mrs2 & E2 & D2 & _).
  exists m1, k1, (Z.max 0 (fexp prec emax (Zdigits2 m1 + (E + k1)) - (E + k1))).
  split; [reflexivity|]. split; [exact B1|].
  split; [intros Hmod; apply X1, L1, Hmod|].
  split; [reflexivity|].
  unfold binary_round_aux. rewrite E1. fold m1. rewrite E2, D2.
  reflexivity.
Qed.

Lemma Pos_iter_xO (m d : positive) :
  Z.pos (Pos.iter xO m d) = Z.pos m * 2 ^ Z.pos d /\
  Z.pos (digits2_pos (Pos.iter xO m d)) = Z.pos (digits2_pos m) + Z.pos d.
Proof.
  induction d as [|d IH] using Pos.peano_ind.
  - cbn [Pos.iter digits2_pos]. split; lia.
  - rewrite Pos.iter_succ. cbn [digits2_pos]. destruct IH as (IH1 & IH2).
    rewrite Pos2Z.inj_succ, Z.pow_succ_r by lia. split; lia.
Qed.

Lemma canonical_mantissa_facts (m : positive) (e : Z) :
  canonical_mantissa prec emax m e = true ->
  -1074 <= e /\ Z.pos (digits2_pos m) <= 53 /\
  (-1074 < e -> Z.pos (digits2_pos m) = 53).
Proof.
  unfold canonical_mantissa. rewrite fexp64_eq. intros H.
  apply Z.eqb_eq in H. lia.
Qed.

Lemma pow2_pos (k : Z) : 0 <= k -> 0 < 2 ^ k.
Proof. intros H. apply Z.pow_pos_nonneg; lia. Qed.

(** Rounding a magnitude that is at least a canonical one does not fall
    below it. *)
Lemma binary_round_lower (s : bool) (M : positive) (E : Z)
  (m : positive) (e : Z) :
  canonical_mantissa prec emax m e = true ->
  E <= e -> Z.pos m * 2 ^ (e - E) <= Z.pos M ->
  match binary_round prec emax s M E with
  | S754_finite s' mr er =>
      s' = s /\ (e < er \/ (er = e /\ Z.pos m <= Z.pos mr))
  | S754_infinity s' => s' = s
  | _ => False
  end.
Proof.
  intros Hcan HE Hle.
  destruct (canonical_mantissa_facts m e Hcan) as (He & Hdm & Hnorm).
  pose proof (digits2_pos_bounds M) as HM.
  pose proof (digits2_pos_bounds m) as Hm.
  set (D := Z.pos (digits2_pos M)) in *.
  set (dm := Z.pos (digits2_pos m)) in *.
  assert (HDE : dm + e <= D + E).
  { destruct (Z.le_gt_cases (dm + e) (D + E)) as [H|H]; [exact H|].
    exfalso.
    assert (H1 : 2 ^ D <= 2 ^ (dm - 1 + (e - E)))
      by (apply Z.pow_le_mono_r; lia).
    rewrite Z.pow_add_r in H1 by lia.
    pose proof (pow2_pos (e - E) ltac:(lia)). nia. }
  assert (Hf : e <= fexp prec emax (D + E)).
  { unfold canonical_mantissa in Hcan. apply Z.eqb_eq in Hcan.
    fold dm in Hcan. rewrite fexp64_eq in *. lia. }
  unfold binary_round, shl_align. fold D.
  destruct (fexp prec emax (D + E) - E) as [|p|p] eqn:Ek; try lia.
  all: destruct (binary_round_aux_spec s M E)
         as (m1 & k1 & k2 & Hk1 & B1 & _ & Hk2 & ->); fold D in Hk1.
  all: rewrite fexp64_eq in *.
  all: set (f := Z.max (D + E - 53) (-1074)) in *.
  all: assert (Ef : E + k1 = f) by lia.
  all: rewrite Ef in *.
  all: assert (HP : (f = e -> Z.pos m <= Z.pos M / 2 ^ k1) /\
                    (e < f -> 2 ^ 52 <= Z.pos M / 2 ^ k1)).
  1,3: split; intros Hfe.
  1,3: apply Z.div_le_lower_bound;
         [apply pow2_pos; lia | replace k1 with (e - E) by lia; lia].
  1,2: apply Z.div_le_lower_bound; [apply pow2_pos; lia|];
       replace k1 with (D - 53) by lia;
       rewrite <- Z.pow_add_r by lia;
       replace (D - 53 + 52) with (D - 1) by lia; lia.
  all: destruct HP as (HP1 & HP2).
  all: assert (Hm1 : 1 <= m1)
    by (destruct (Z.eq_dec f e); [specialize (HP1 ltac:(lia)) |
                                   specialize (HP2 ltac:(lia))]; lia).
  all: destruct (Zdigits2_bounds m1 ltac:(lia)) as (Hd1 & Hlo1 & _).
  all: assert (Hres : 1 <= m1 / 2 ^ k2 /\ (k2 = 0 -> m1 / 2 ^ k2 = m1)).
  1,3: split; [|intros ->; apply Z.div_1_r].
  1,2: apply Z.div_le_lower_bound; [apply pow2_pos; lia|];
       destruct (Z.eq_dec k2 0) as [->|Hk2'];
       [simpl; lia|];
       (assert (Hk2v : k2 = Zdigits2 m1 - 53) by lia);
       (assert (Hpow : 2 ^ (Zdigits2 m1 - 1) = 2 ^ k2 * 2 ^ 52)
         by (rewrite <- Z.pow_add_r by lia; f_equal; lia));
       lia.
  all: destruct Hres as (Hres1 & Hres2).
  all: destruct (m1 / 2 ^ k2) as [|mr|mr] eqn:Emr; try lia.
  all: destruct (f + k2 <=? emax - prec); [|reflexivity].
  all: split; [reflexivity|].
  all: destruct (Z.eq_dec (f + k2) e) as [Heq|Hne]; [right | left; lia].
  all: split; [exact Heq|].
  all: assert (k2 = 0) by lia.
  all: rewrite (Hres2 ltac:(assumption)) in *.
  all: specialize (HP1 ltac:(lia)); lia.
Qed.

(** Rounding a magnitude that is at most a canonical one does not rise
    above it. *)
Lemma binary_round_upper (s : bool) (M : positive) (E : Z)
  (m : positive) (e : Z) :
  canonical_mantissa prec emax m e = true -> e <= emax - prec ->
  E <= e -> Z.pos M <= Z.pos m * 2 ^ (e - E) ->
  match binary_round prec emax s M E with
  | S754_finite s' mr er =>
      s' = s /\ (er < e \/ (er = e /\ Z.pos mr <= Z.pos m))
  | S754_zero s' => s' = s
  | _ => False
  end.
Proof.
  intros Hcan Hemax HE Hle.
  change (emax - prec) with 971 in *.
  destruct (canonical_mantissa_facts m e Hcan) as (He & Hdm & Hnorm).
  pose proof (digits2_pos_bounds M) as HM.
  pose proof (digits2_pos_bounds m) as Hm.
  set (D := Z.pos (digits2_pos M)) in *.
  set (dm := Z.pos (digits2_pos m)) in *.
  assert (HDE : D + E <= dm + e).
  { destruct (Z.le_gt_cases (D + E) (dm + e)) as [H|H]; [exact H|].
    exfalso.
    assert (H1 : 2 ^ (dm + (e - E)) <= 2 ^ (D - 1))
      by (apply Z.pow_le_mono_r; lia).
    rewrite Z.pow_add_r in H1 by lia.
    pose proof (pow2_pos (e - E) ltac:(lia)). nia. }
  assert (Hf : fexp prec emax (D + E) <= e).
  { unfold canonical_mantissa in Hcan. apply Z.eqb_eq in Hcan.
    fold dm in Hcan. rewrite fexp64_eq in *. lia. }
  unfold binary_round, shl_align. fold D.
  destruct (fexp prec emax (D + E) - E) as [|p|p] eqn:Ek.
  3:{ (* the mantissa is shifted left: the result is exact *)
      destruct (Pos_iter_xO M p) as (Hval & Hdig).
      destruct (binary_round_aux_spec s (Pos.iter xO M p)
                  (fexp prec emax (D + E)))
        as (m1 & k1 & k2 & Hk1 & B1 & X1 & Hk2 & ->).
      rewrite Hdig in Hk1. fold D in Hk1.
      replace (D + Z.pos p + fexp prec emax (D + E)) with (D + E) in Hk1
        by lia.
      assert (Hk0 : k1 = 0) by lia. clear Hk1. subst k1.
      assert (Hm1 : m1 = Z.pos (Pos.iter xO M p)).
      { rewrite Z.pow_0_r, Z.div_1_r in X1. apply X1, Z.mod_1_r. }
      subst m1. rewrite !Z.add_0_r in Hk2. rewrite !Z.add_0_r.
      cbn [Zdigits2] in Hk2.
      rewrite Hdig in Hk2. fold D in Hk2.
      replace (D + Z.pos p + fexp prec emax (D + E)) with (D + E) in Hk2
        by lia.
      assert (Hk0 : k2 = 0) by lia. clear Hk2. subst k2.
      rewrite Z.pow_0_r, Z.div_1_r, Z.add_0_r.
      change (emax - prec) with 971.
      destruct (Z.leb_spec (fexp prec emax (D + E)) 971); [|lia].
      split; [reflexivity | left; lia]. }
  all: destruct (binary_round_aux_spec s M E)
         as (m1 & k1 & k2 & Hk1 & B1 & X1 & Hk2 & ->); fold D in Hk1.
  all: rewrite fexp64_eq in *.
  all: set (f := Z.max (D + E - 53) (-1074)) in *.
  all: assert (Ef : E + k1 = f) by lia.
  all: rewrite Ef in *.
  all: assert (Hk1' : 0 <= k1) by lia.
  all: pose proof (pow2_pos k1 Hk1') as Hp1.
  all: pose proof (Z.div_mod (Z.pos M) (2 ^ k1) ltac:(lia)) as Hdm'.
  all: pose proof (Z.mod_pos_bound (Z.pos M) (2 ^ k1) Hp1) as Hmod.
  all: assert (HA : 0 <= Z.pos M / 2 ^ k1 < 2 ^ 53).
  1,3: split; [apply Z.div_pos; lia|];
       apply Z.div_lt_upper_bound; [lia|];
       (assert (H1 : 2 ^ D <= 2 ^ (k1 + 53))
         by (apply Z.pow_le_mono_r; lia));
       rewrite Z.pow_add_r in H1 by lia; lia.
  all: assert (HB : f = e -> m1 <= Z.pos m).
  1,3: intros Hfe; replace (e - E) with k1 in Hle by lia;
       destruct (Z.eq_dec (Z.pos M mod 2 ^ k1) 0) as [Hz|Hnz];
       [rewrite (X1 Hz); nia | nia].
  all: change (emax - prec) with 971.
  all: assert (Hm53 : Z.pos m < 2 ^ 53)
    by (assert (2 ^ dm <= 2 ^ 53) by (apply Z.pow_le_mono_r; lia); lia).
  all: destruct (Z.eq_dec m1 (2 ^ 53)) as [Hcarry|Hnocarry].
  1,3: subst m1;
       (assert (Hfe : f < e)
         by (destruct (Z.eq_dec f e) as [Hfe|Hfe];
             [specialize (HB Hfe); lia | lia]));
       change (Zdigits2 (2 ^ 53)) with 54 in Hk2;
       (assert (Hk2' : k2 = 1) by lia); clear Hk2; subst k2;
       change (2 ^ 53 / 2 ^ 1) with (Z.pos 4503599627370496);
       cbv iota beta;
       destruct (Z.leb_spec (f + 1) 971); [|lia];
       (split; [reflexivity|]);
       destruct (Z.eq_dec (f + 1) e) as [Heq|Hne]; [right | left; lia];
       (split; [exact Heq|]);
       specialize (Hnorm ltac:(lia)); fold dm in Hnorm;
       rewrite Hnorm in Hm; change (2 ^ (53 - 1)) with 4503599627370496 in Hm;
       lia.
  all: assert (Hd1 : Zdigits2 m1 <= 53)
    by (apply Zdigits2_le; lia).
  all: assert (Hk2' : k2 = 0) by lia; clear Hk2; subst k2.
  all: rewrite Z.pow_0_r, Z.div_1_r, Z.add_0_r.
  all: destruct m1 as [|mr|mr]; [reflexivity | | lia].
  all: destruct (Z.leb_spec f 971); [|lia].
  all: split; [reflexivity|].
  all: destruct (Z.eq_dec f e) as [Heq|Hne]; [right | left; lia].
  all: split; [exact Heq | apply HB, Heq].
Qed.

(** Rounding keeps the sign and never produces NaN. *)
Lemma binary_round_sign (s : bool) (M : positive) (E : Z) :
  match binary_round prec emax s M E with
  | S754_finite s' _ _ | S754_zero s' | S754_infinity s' => s' = s
  | S754_nan => False
  end.
Proof.
  unfold binary_round.
  destruct (shl_align M E _) as [mz ez].
  destruct (binary_round_aux_spec s mz ez)
    as (m1 & k1 & k2 & Hk1 & B1 & _ & Hk2 & ->).
  assert (H0 : 0 <= Z.pos mz / 2 ^ k1)
    by (apply Z.div_pos; [lia | apply pow2_pos; lia]).
  assert (H1 : 0 <= m1 / 2 ^ k2)
    by (apply Z.div_pos; [lia | apply pow2_pos; lia]).
  destruct (m1 / 2 ^ k2); [reflexivity | | lia].
  destruct (_ <=? _); reflexivity.
Qed.

(** The sign does not influence the rounded magnitude. *)
Lemma SFabs_binary_round_aux (s s' : bool) (m e : Z) (l : location) :
  SFabs (binary_round_aux prec emax s m e l) =
  SFabs (binary_round_aux prec emax s' m e l).
Proof.
  unfold binary_round_aux.
  destruct (shr_fexp prec emax m e l) as [mrs1 e1].
  destruct (shr_fexp prec emax _ e1 loc_Exact) as [mrs2 e2].
  destruct (shr_m mrs2); [reflexivity | | reflexivity].
  destruct (_ <=? _); reflexivity.
Qed.

Lemma SFabs_binary_round (s s' : bool) (M : positive) (E : Z) :
  SFabs (binary_round prec emax s M E) =
  SFabs (binary_round prec emax s' M E).
Proof.
  unfold binary_round. destruct (shl_align M E _) as [mz ez].
  apply SFabs_binary_round_aux.
Qed.

Lemma SFabs_binary_normalize_opp (m e : Z) :
  SFabs (binary_normalize prec emax (- m) e false) =
  SFabs (binary_normalize prec emax m e false).
Proof.
  destruct m as [|p|p]; cbn [Z.opp binary_normalize];
    [reflexivity | apply SFabs_binary_round | apply SFabs_binary_round].
Qed.

Lemma shl_align_value (m : positive) (e ez : Z) :
  ez <= e -> Z.pos (fst (shl_align m e ez)) = Z.pos m * 2 ^ (e - ez).
Proof.
  intros H. unfold shl_align.
  destruct (ez - e) as [|d|d] eqn:Ed; cbn [fst].
  - replace (e - ez) with 0 by lia. rewrite Z.pow_0_r. lia.
  - lia.
  - destruct (Pos_iter_xO m d) as (Hv & _). rewrite Hv.
    replace (e - ez) with (Z.pos d) by lia. reflexivity.
Qed.

(** Adding a positive number never gives less (in binary64 as in the reals). *)
Lemma SFadd_pos_not_below (x : spec_float) (my : positive) (ey : Z) :
  SpecFloat.valid_binary prec emax x = true ->
  SFltb (SFadd prec emax x (S754_finite false my ey)) x = false.
Proof.
  intros Hv.
  destruct x as [sx|sx| |sx mx ex]; cbn [SFadd].
  - destruct sx; reflexivity.
  - destruct sx; reflexivity.
  - reflexivity.
  - cbn [SpecFloat.valid_binary] in Hv. unfold bounded in Hv.
    apply andb_true_iff in Hv. destruct Hv as (Hcan & Hle).
    apply Z.leb_le in Hle.
    cbv zeta. set (ez := Z.min ex ey).
    pose proof (shl_align_value mx ex ez ltac:(lia)) as HA.
    pose proof (shl_align_value my ey ez ltac:(lia)) as HB.
    set (A := fst (shl_align mx ex ez)) in *.
    set (B := fst (shl_align my ey ez)) in *.
    destruct sx; cbn [cond_Zopp].
    + destruct (- Z.pos A + Z.pos B) as [|p|p] eqn:E; cbn [binary_normalize].
      * reflexivity.
      * pose proof (binary_round_sign false p ez) as Hs.
        destruct (binary_round prec emax false p ez);
          try contradiction; subst; reflexivity.
      * assert (Hp : Z.pos p <= Z.pos mx * 2 ^ (ex - ez)) by lia.
        pose proof (binary_round_upper true p ez mx ex Hcan Hle
                      ltac:(lia) Hp) as Hu.
        destruct (binary_round prec emax true p ez) as [s'|s'| |s' mr er];
          try contradiction; try (subst; reflexivity).
        destruct Hu as (-> & Hu). unfold SFltb, SFcompare.
        change (Pos.compare_cont Eq mr mx) with (Pos.compare mr mx).
        destruct (Z.compare_spec er ex); try reflexivity; try lia.
        destruct (Pos.compare_spec mr mx); try reflexivity; lia.
    + change (Z.pos A + Z.pos B) with (Z.pos (A + B)).
      cbn [binary_normalize].
      assert (Hp : Z.pos mx * 2 ^ (ex - ez) <= Z.pos (A + B)) by lia.
      pose proof (binary_round_lower false (A + B) ez mx ex Hcan
                    ltac:(lia) Hp) as Hl.
      destruct (binary_round prec emax false (A + B) ez) as [s'|s'| |s' mr er];
        try contradiction; try (subst; reflexivity).
      destruct Hl as (-> & Hl). unfold SFltb, SFcompare.
      change (Pos.compare_cont Eq mr mx) with (Pos.compare mr mx).
      destruct (Z.compare_spec er ex); try reflexivity; try lia.
      destruct (Pos.compare_spec mr mx); try reflexivity; lia.
Qed.

(** The comparison of binary64 values is a strict order outside NaN. *)
Ltac SF_order :=
  unfold SFltb, SFcompare;
  repeat match goal with
         | |- context [Pos.compare_cont Eq ?a ?b] =>
             change (Pos.compare_cont Eq a b) with (Pos.compare a b)
         | H : context [Pos.compare_cont Eq ?a ?b] |- _ =>
             change (Pos.compare_cont Eq a b) with (Pos.compare a b) in H
         end;
  repeat match goal with
         | |- context [Z.compare ?a ?b] => destruct (Z.compare_spec a b)
         | H : context [Z.compare ?a ?b] |- _ => destruct (Z.compare_spec a b)
         | |- context [Pos.compare ?a ?b] => destruct (Pos.compare_spec a b)
         | H : context [Pos.compare ?a ?b] |- _ =>
             destruct (Pos.compare_spec a b)
         end;
  cbn [CompOpp] in *; try reflexivity; try discriminate; try congruence;
  try lia.

Lemma SFltb_le_lt_trans (x y z : spec_float) :
  x <> S754_nan ->
  SFltb y x = false -> SFltb y z = true -> SFltb x z = true.
Proof.
  intros Hx.
  destruct x as [[|]|[|]| |[|] mx ex]; try congruence;
    destruct y as [[|]|[|]| |[|] my ey];
    destruct z as [[|]|[|]| |[|] mz ez]; SF_order.
Qed.

Lemma SFltb_asym (x y : spec_float) :
  SFltb x y = true -> SFltb y x = false.
Proof.
  destruct x as [[|]|[|]| |[|] mx ex];
    destruct y as [[|]|[|]| |[|] my ey]; SF_order.
Qed.

Lemma SFltb_not_nan (x y : spec_float) :
  SFltb x y = true -> x <> S754_nan /\ y <> S754_nan.
Proof.
  destruct x, y; cbn; intros H; split; congruence.
Qed.

(** The two thresholds of a symmetric margin cannot both be passed. *)
Lemma SF_margins_exclusive (h a : spec_float) (my : positive) (ey : Z) :
  SpecFloat.valid_binary prec emax h = true ->
  SpecFloat.valid_binary prec emax a = true ->
  SFltb (SFadd prec emax a (S754_finite false my ey)) h = true ->
  SFltb (SFadd prec emax h (S754_finite false my ey)) a = false.
Proof.
  intros Hh Ha H1.
  destruct (SFltb (SFadd prec emax h _) a) eqn:H2; [exfalso | reflexivity].
  destruct (SFltb_not_nan _ _ H1) as (_ & Hhn).
  destruct (SFltb_not_nan _ _ H2) as (_ & Han).
  pose proof (SFltb_le_lt_trans a _ h Han
                (SFadd_pos_not_below a my ey Ha) H1) as Hah.
  pose proof (SFltb_le_lt_trans h _ a Hhn
                (SFadd_pos_not_below h my ey Hh) H2) as Hha.
  apply SFltb_asym in Hah. congruence.
Qed.

(** [|x - y| = |y - x|] holds bit for bit. *)
Lemma SFabs_sub_sym (x y : spec_float) :
  SFabs (SFsub prec emax x y) = SFabs (SFsub prec emax y x).
Proof.
  destruct x as [[|]|[|]| |sx mx ex];
    destruct y as [[|]|[|]| |sy my ey]; try reflexivity.
  cbn [SFsub]. cbv zeta. rewrite (Z.min_comm ey ex).
  rewrite <- SFabs_binary_normalize_opp. f_equal. f_equal. lia.
Qed.

Lemma SFmul_comm (x y : spec_float) :
  SFmul prec emax x y = SFmul prec emax y x.
Proof.
  destruct x as [[|]|[|]| |sx mx ex];
    destruct y as [[|]|[|]| |sy my ey]; try reflexivity;
    cbn [SFmul]; rewrite 1?xorb_comm; try reflexivity.
  rewrite (Pos.mul_comm my mx), (Z.add_comm ey ex). reflexivity.
Qed.

Lemma binary_round_aux_sign (s : bool) (M : positive) (E : Z) :
  match binary_round_aux prec emax s (Z.pos M) E loc_Exact with
  | S754_finite s' _ _ | S754_zero s' | S754_infinity s' => s' = s
  | S754_nan => False
  end.
Proof.
  destruct (binary_round_aux_spec s M E)
    as (m1 & k1 & k2 & Hk1 & B1 & _ & Hk2 & ->).
  assert (H0 : 0 <= Z.pos M / 2 ^ k1)
    by (apply Z.div_pos; [lia | apply pow2_pos; lia]).
  assert (H1 : 0 <= m1 / 2 ^ k2)
    by (apply Z.div_pos; [lia | apply pow2_pos; lia]).
  destruct (m1 / 2 ^ k2); [reflexivity | | lia].
  destruct (_ <=? _); reflexivity.
Qed.

(** A positive number times a magnitude is NaN or has the sign plus. *)
Lemma SFmul_pos_abs (m : positive) (e : Z) (x : spec_float) :
  match SFmul prec emax (S754_finite false m e) (SFabs x) with
  | S754_finite s _ _ | S754_zero s | S754_infinity s => s = false
  | S754_nan => True
  end.
Proof.
  destruct x as [sx|sx| |sx mx ex]; cbn [SFabs SFmul xorb]; try reflexivity.
  pose proof (binary_round_aux_sign false (m * mx) (e + ex)) as H.
  destruct (binary_round_aux _ _ _ _ _ _); try exact H; exact I.
Qed.

Lemma SFleb_of_not_ltb (x y : spec_float) :
  x <> S754_nan -> y <> S754_nan -> SFltb x y = false -> SFleb y x = true.
Proof.
  intros Hx Hy.
  destruct x as [[|]|[|]| |[|] mx ex]; try congruence;
    destruct y as [[|]|[|]| |[|] my ey]; try congruence;
    unfold SFleb; SF_order.
Qed.

Lemma SFltb_irrefl (x : spec_float) : SFltb x x = false.
Proof. destruct x as [[|]|[|]| |[|] mx ex]; SF_order. Qed.

(** [x + p >= x] for a valid [x] that is not NaN and a [p] that is zero,
    positive or plus infinity. *)
Lemma SFadd_nonneg_leb (x p : spec_float) :
  SpecFloat.valid_binary prec emax x = true ->
  match p with
  | S754_finite s _ _ | S754_zero s | S754_infinity s => s = false
  | S754_nan => False
  end ->
  SFadd prec emax x p <> S754_nan ->
  SFleb x (SFadd prec emax x p) = true.
Proof.
  intros Hv Hp Hn.
  apply SFleb_of_not_ltb; [exact Hn | | ].
  - intros ->. apply Hn. now destruct p.
  - destruct p as [s|s| |s m e]; try contradiction; subst s.
    + destruct x as [[|]|[|]| |[|] mx ex]; try reflexivity;
        apply SFltb_irrefl.
    + destruct x as [[|]|[|]| |[|] mx ex]; try reflexivity;
        apply SFltb_irrefl.
    + now apply SFadd_pos_not_below.
Qed.

(** ** The predictor in binary64 *)

Lemma Prim2SF_half :
  Prim2SF 0.5 = S754_finite false 4503599627370496 (-53).
Proof. reflexivity. Qed.

(** Of the two margins of 0.5 at most one is exceeded. *)
Lemma float_margins_exclusive (h a : float) :
  (a + 0.5 <? h)%float = true -> (h + 0.5 <? a)%float = false.
Proof.
  rewrite !ltb_spec, !add_spec, Prim2SF_half.
  apply SF_margins_exclusive; apply Prim2SF_valid.
Qed.

Lemma float_abs_sub_sym (x y : float) : abs (x - y) = abs (y - x).
Proof.
  apply Prim2SF_inj. rewrite !abs_spec, !sub_spec. apply SFabs_sub_sym.
Qed.

Lemma float_mul_comm (x y : float) : (x * y)%float = (y * x)%float.
Proof.
  apply Prim2SF_inj. rewrite !mul_spec. apply SFmul_comm.
Qed.

Lemma fold_left_Series_sum (xs : list Z) :
  fold_left Z.add xs 0 = Series_sum xs.
Proof.
  unfold Series_sum. rewrite <- fold_left_rev_right.
  assert (H : forall (l : list Z) (a : Z),
             fold_right (fun y x => x + y) a l = a + fold_right Z.add 0 l).
  { induction l as [|x l IH]; intros a; simpl; [lia | rewrite IH; lia]. }
  rewrite H.
  assert (Hrev : forall l : list Z,
             fold_right Z.add 0 (rev l) = fold_right Z.add 0 l).
  { induction l as [|x l IH]; [reflexivity|]. simpl.
    rewrite fold_right_app. simpl. rewrite <- IH.
    generalize (rev l). induction l0 as [|y l0 IH0]; simpl; lia. }
  rewrite Hrev. lia.
Qed.

Lemma mean64_Series_mean (xs : list Z) : mean64 xs = B64.Series_mean xs.
Proof.
  unfold mean64, B64.Series_mean. now rewrite fold_left_Series_sum.
Qed.

Lemma fixtures_at_home_filter (filtered_df : list Match) (team : string) :
  fixtures_at_home filtered_df team = filter (home_of team) filtered_df.
Proof.
  apply filter_ext. intros m. unfold home_of.
  destruct (string_dec (HomeTeam m) team) as [E|E].
  - symmetry. now apply String.eqb_eq.
  - symmetry. now apply String.eqb_neq.
Qed.

Lemma fixtures_away_filter (filtered_df : list Match) (team : string) :
  fixtures_away filtered_df team = filter (away_of team) filtered_df.
Proof.
  apply filter_ext. intros m. unfold away_of.
  destruct (string_dec (AwayTeam m) team) as [E|E].
  - symmetry. now apply String.eqb_eq.
  - symmetry. now apply String.eqb_neq.
Qed.

Lemma B64_predict_match_outcome_Metrics (filtered_df : list Match)
  (home_team away_team : string) :
  fixtures_at_home filtered_df home_team <> [] ->
  fixtures_away filtered_df away_team <> [] ->
  B64.predict_match_outcome filtered_df home_team away_team =
  B64.Metrics
    (fst (B64.prediction_logic (homeStrength64 filtered_df home_team)
            (awayStrength64 filtered_df away_team)))
    (snd (B64.prediction_logic (homeStrength64 filtered_df home_team)
            (awayStrength64 filtered_df away_team)))
    (B64.py_max 0
       ((mean64 (map FullTimeHomeGoals
                   (fixtures_at_home filtered_df home_team))
         + mean64 (map FullTimeAwayGoals
                     (fixtures_away filtered_df away_team)))
        / 2)%float).
Proof.
  unfold homeStrength64, awayStrength64.
  rewrite !mean64_Series_mean, fixtures_at_home_filter, fixtures_away_filter.
  intros Hh Ha. unfold B64.predict_match_outcome.
  rewrite (proj2 (len_pos _) Hh), (proj2 (len_pos _) Ha). reflexivity.
Qed.

Lemma B64_predict_match_outcome_Warning (filtered_df : list Match)
  (home_team away_team : string) :
  fixtures_at_home filtered_df home_team = [] \/
  fixtures_away filtered_df away_team = [] ->
  B64.predict_match_outcome filtered_df home_team away_team
  = B64.Warning not_enough_data.
Proof.
  rewrite fixtures_at_home_filter, fixtures_away_filter.
  intros [H|H]; unfold B64.predict_match_outcome; rewrite H; simpl;
    rewrite ?andb_false_r; reflexivity.
Qed.

(** The three branches of lines 310-318 on two binary64 strengths. *)
Lemma B64_prediction_logic_cases (h a : float) :
  ((a + 0.5 <? h)%float = true /\ (h + 0.5 <? a)%float = false /\
   B64.prediction_logic h a =
   ("Home Win", B64.py_min 95 (60 + 10 * abs (h - a))%float)) \/
  ((a + 0.5 <? h)%float = false /\ (h + 0.5 <? a)%float = true /\
   B64.prediction_logic h a =
   ("Away Win", B64.py_min 95 (60 + 10 * abs (h - a))%float)) \/
  ((a + 0.5 <? h)%float = false /\ (h + 0.5 <? a)%float = false /\
   B64.prediction_logic h a = ("Draw", B64.Int 50)).
Proof.
  unfold B64.prediction_logic.
  change (B64.of_int 60) with 60%float.
  change (B64.of_int 10) with 10%float.
  destruct (a + 0.5 <? h)%float eqn:H1.
  - left. split; [reflexivity|].
    split; [now apply float_margins_exclusive|].
    now rewrite float_mul_comm.
  - right. destruct (h + 0.5 <? a)%float eqn:H2.
    + left. split; [reflexivity|]. split; [reflexivity|].
      now rewrite float_mul_comm, (float_abs_sub_sym a h).
    + right. repeat split.
Qed.

(** C4.  In the binary64 arithmetic of the script, on any two strengths
    the prediction is "Home Win" exactly when the home strength is greater
    than the away strength plus 0.5, "Away Win" exactly when the away
    strength is greater than the home strength plus 0.5, and "Draw" in
    every other case; the two conditions never hold together.  The
    confidence of a decisive outcome is min(95, 60 + 10 * |home - away|),
    that is the float 60 + 10 * |home - away| when it is below 95 and the
    int 95 otherwise, and that of a draw is the int 50.  When both teams
    have fixtures the predictor applies this rule to the home team's mean
    goals scored minus mean goals conceded over its home fixtures and the
    away team's mean scored minus mean conceded over its away fixtures.
    Strengths 1.0 and -1.0 give "Home Win" with confidence 80, as do a
    home team averaging 2.0 scored and 1.0 conceded and an away team
    averaging 0.5 scored and 1.5 conceded.  The comparison is that of the
    rounded numbers: means 1/2 - 2/2 at home and 4/3 - 7/3 away give the
    strengths -0.5 and -1.0000000000000002, hence "Home Win" with
    confidence 65. *)
Theorem decision_rule_binary64 :
  (forall home_strength away_strength : float,
     let label := fst (B64.prediction_logic home_strength away_strength) in
     let confidence :=
       snd (B64.prediction_logic home_strength away_strength) in
     let c := (60 + 10 * abs (home_strength - away_strength))%float in
     (label = "Home Win" <->
      (away_strength + 0.5 <? home_strength)%float = true) /\
     (label = "Away Win" <->
      (home_strength + 0.5 <? away_strength)%float = true) /\
     (label = "Draw" <->
      (away_strength + 0.5 <? home_strength)%float = false /\
      (home_strength + 0.5 <? away_strength)%float = false) /\
     (label <> "Draw" ->
      confidence = if (c <? 95)%float then B64.Float c else B64.Int 95) /\
     (label = "Draw" -> confidence = B64.Int 50)) /\
  (forall (filtered_df : list Match) (home_team away_team : string),
     fixtures_at_home filtered_df home_team <> [] ->
     fixtures_away filtered_df away_team <> [] ->
     exists goals,
       B64.predict_match_outcome filtered_df home_team away_team =
       B64.Metrics
         (fst (B64.prediction_logic (homeStrength64 filtered_df home_team)
                 (awayStrength64 filtered_df away_team)))
         (snd (B64.prediction_logic (homeStrength64 filtered_df home_team)
                 (awayStrength64 filtered_df away_team)))
         goals) /\
  B64.prediction_logic 1 (-1) = ("Home Win", B64.Float 80) /\
  (let filtered_df :=
     [mkMatch 1 "2023/24" "A" "C" 2 1 "H";
      mkMatch 2 "2023/24" "C" "B" 1 0 "H";
      mkMatch 3 "2023/24" "D" "B" 2 1 "H"] in
   homeStrength64 filtered_df "A" = 1%float /\
   awayStrength64 filtered_df "B" = (-1)%float /\
   exists goals,
     B64.predict_match_outcome filtered_df "A" "B"
     = B64.Metrics "Home Win" (B64.Float 80) goals) /\
  (let filtered_df :=
     [mkMatch 1 "2023/24" "A" "C" 1 1 "D";
      mkMatch 2 "2023/24" "A" "D" 0 1 "A";
      mkMatch 3 "2023/24" "C" "B" 2 1 "H";
      mkMatch 4 "2023/24" "D" "B" 2 2 "D";
      mkMatch 5 "2023/24" "E" "B" 3 1 "H"] in
   homeStrength64 filtered_df "A" = (-0.5)%float /\
   awayStrength64 filtered_df "B" = (-0x1.0000000000001p+0)%float /\
   exists goals,
     B64.predict_match_outcome filtered_df "A" "B"
     = B64.Metrics "Home Win" (B64.Float 65) goals).
Proof.
  split; [|split; [|split; [reflexivity|split]]].
  - intros h a. cbv zeta.
    destruct (B64_prediction_logic_cases h a)
      as [(H1 & H2 & E)|[(H1 & H2 & E)|(H1 & H2 & E)]];
      rewrite E, H1, H2; cbn [fst snd];
      repeat split; try discriminate; try tauto; try congruence;
      intros; exfalso; intuition congruence.
  - intros filtered_df home_team away_team Hh Ha.
    eexists. apply B64_predict_match_outcome_Metrics; assumption.
  - cbv zeta. split; [reflexivity|]. split; [reflexivity|].
    eexists. vm_compute. reflexivity.
  - cbv zeta. split; [reflexivity|]. split; [reflexivity|].
    eexists. vm_compute. reflexivity.
Qed.

(** C5.  The predictor answers with the warning, and no numbers, exactly
    when the home team has no home fixture or the away team has no away
    fixture in the filtered frame; it answers with a label, a confidence
    and expected goals, all of them numbers, exactly when each has at
    least one.  In particular a team that plays in no filtered match at
    all gets the warning. *)
Theorem predictor_insufficient_data :
  forall (filtered_df : list Match) (home_team away_team : string),
    ((~ (exists m, home_fixture filtered_df home_team m) \/
      ~ (exists m, away_fixture filtered_df away_team m)) <->
     predict_match_outcome filtered_df home_team away_team
     = Warning not_enough_data) /\
    (((exists m, home_fixture filtered_df home_team m) /\
      (exists m, away_fixture filtered_df away_team m)) <->
     exists label confidence goals,
       predict_match_outcome filtered_df home_team away_team
       = Metrics label (fin confidence) (fin goals)) /\
    ((forall m, In m filtered_df -> ~ plays_in home_team m) ->
     predict_match_outcome filtered_df home_team away_team
     = Warning not_enough_data) /\
    ((forall m, In m filtered_df -> ~ plays_in away_team m) ->
     predict_match_outcome filtered_df home_team away_team
     = Warning not_enough_data).
Proof.
  intros filtered_df home_team away_team.
  rewrite <- home_data_nonempty, <- away_data_nonempty.
  assert (Hnum : filter (home_of home_team) filtered_df <> [] ->
                 filter (away_of away_team) filtered_df <> [] ->
                 exists label confidence goals,
                   predict_match_outcome filtered_df home_team away_team
                   = Metrics label (fin confidence) (fin goals)).
  { intros Hh Ha. rewrite predict_match_outcome_Metrics by assumption.
    destruct (py_max_zero
                ((average (map FullTimeHomeGoals
                             (filter (home_of home_team) filtered_df))
                  + average (map FullTimeAwayGoals
                               (filter (away_of away_team) filtered_df)))
                 / 2)%Q) as (e & -> & _).
    destruct (prediction_logic_cases (homeStrength filtered_df home_team)
                (awayStrength filtered_df away_team))
      as [(_ & E)|[(_ & _ & E)|(_ & _ & E)]]; rewrite E; cbn [fst snd].
    - destruct (py_min_95
                  (60 + Qabs (homeStrength filtered_df home_team
                              - awayStrength filtered_df away_team) * 10))
        as (c & -> & _). now eexists _, _, _.
    - destruct (py_min_95
                  (60 + Qabs (awayStrength filtered_df away_team
                              - homeStrength filtered_df home_team) * 10))
        as (c & -> & _). now eexists _, _, _.
    - now eexists _, _, _. }
  assert (Hwarn : filter (home_of home_team) filtered_df = [] \/
                  filter (away_of away_team) filtered_df = [] ->
                  predict_match_outcome filtered_df home_team away_team
                  = Warning not_enough_data)
    by apply predict_match_outcome_Warning.
  assert (Hcase : (filter (home_of home_team) filtered_df = [] \/
                   filter (away_of away_team) filtered_df = []) \/
                  (filter (home_of home_team) filtered_df <> [] /\
                   filter (away_of away_team) filtered_df <> [])).
  { destruct (nonempty_dec (filter (home_of home_team) filtered_df));
      destruct (nonempty_dec (filter (away_of away_team) filtered_df));
      tauto. }
  destruct Hcase as [Hempty|(Hh & Ha)].
  { rewrite (Hwarn Hempty). split; [|split; [|split]].
    - split; [reflexivity|]. intros _.
      destruct Hempty as [H|H]; [left | right]; intros Hne; now apply Hne.
    - split; [|intros (? & ? & ? & H); discriminate H].
      intros (H1 & H2). destruct Hempty; contradiction.
    - reflexivity.
    - reflexivity. }
  destruct (Hnum Hh Ha) as (label & c & g & E). rewrite E.
  split; [|split; [|split]].
  - split; [tauto | discriminate].
  - split; [intros _; now exists label, c, g | tauto].
  - intros Hno. exfalso. apply home_data_nonempty in Hh.
    destruct Hh as (m & Hm & Ht). apply (Hno m Hm). now left.
  - intros Hno. exfalso. apply away_data_nonempty in Ha.
    destruct Ha as (m & Hm & Ht). apply (Hno m Hm). now right.
Qed.




(** ** Empty filtered frame *)

Lemma league_table_empty (teams : list string) : league_table [] teams = [].
Proof.
  unfold league_table. rewrite league_table_loop_app. simpl.
  induction teams as [|t teams IH]; [reflexivity | exact IH].
Qed.

(** C7 fails on the code.  On an empty filtered frame the overview
    divides the count of home wins by the count of matches, which is 0,
    and raises ZeroDivisionError; the league tab sorts a frame without
    columns and raises KeyError.  So a run whose filters keep no record
    ends in ZeroDivisionError, as on the sample frame with the goals range
    (1, 1). *)
Theorem empty_view_raises :
  overview [] = Raise ZeroDivisionError /\
  (forall (df : DataFrame) (f : Filters),
     league_tab df f [] = Raise (KeyError "Points")) /\
  (forall (df : DataFrame) (f : Filters),
     apply_filters df f = [] -> dashboard df f = Raise ZeroDivisionError) /\
  apply_filters sample_df (mkFilters [] [] [] 1 1) = [] /\
  dashboard sample_df (mkFilters [] [] [] 1 1) = Raise ZeroDivisionError.
Proof.
  split; [reflexivity|]. split; [|split; [|split; reflexivity]].
  - intros df f. unfold league_tab. now rewrite league_table_empty.
  - intros df f H. unfold dashboard. now rewrite H.
Qed.

(** ** Points of one match *)

(** The branches of lines 367-374 on any record and any team name. *)
Lemma get_team_result_cases (row : Match) (team : string) :
  (get_team_result row team = 0 \/ get_team_result row team = 1 \/
   get_team_result row team = 3) /\
  (get_team_result row team = 3 <->
   (HomeTeam row = team /\ FullTimeResult row = "H") \/
   (HomeTeam row <> team /\ FullTimeResult row = "A")) /\
  (get_team_result row team = 1 <-> FullTimeResult row = "D") /\
  (HomeTeam row <> AwayTeam row -> plays_in team row ->
   get_team_result row team = points_as_specified row team).
Proof.
  unfold get_team_result, points_as_specified, team_won, plays_in.
  destruct (String.eqb_spec (HomeTeam row) team) as [Hh|Hh];
    destruct (String.eqb_spec (AwayTeam row) team) as [Ha|Ha];
    destruct (String.eqb_spec (FullTimeResult row) "H") as [RH|RH];
    destruct (String.eqb_spec (FullTimeResult row) "A") as [RA|RA];
    destruct (String.eqb_spec (FullTimeResult row) "D") as [RD|RD];
    cbn [andb orb];
    try (rewrite RH in *; discriminate);
    try (rewrite RA in *; discriminate);
    repeat split; intros; try tauto; try lia; try congruence;
    try (intuition (congruence || lia)).
Qed.

Lemma In_team_all (filtered_df : list Match) (team : string) (row : Match) :
  In row (team_all filtered_df team) <->
  In row filtered_df /\ plays_in team row.
Proof.
  unfold team_all, plays_in, home_of, away_of.
  rewrite in_app_iff, !filter_In, !String.eqb_eq. tauto.
Qed.

(** C9.  [get_team_result] reads nothing but the record and the team
    name it is given, and its value is always 0, 1 or 3.  The script
    applies it to the matches of the team: records with two different
    sides, one of which is the team.  On each of them the value is 3
    exactly when the team won (it is the home team and the result is 'H',
    or it is the away team and the result is 'A'), 1 exactly when the
    result is 'D', and 0 exactly in every other case, which is the
    specified scoring; so it is on every row of [team_all] of a frame
    that pairs no team with itself. *)
Theorem get_team_result_points :
  (forall (row : Match) (team : string),
     get_team_result row team = 0 \/ get_team_result row team = 1 \/
     get_team_result row team = 3) /\
  (forall (row : Match) (team : string),
     plays_in team row -> HomeTeam row <> AwayTeam row ->
     (get_team_result row team = 3 <->
      (HomeTeam row = team /\ FullTimeResult row = "H") \/
      (AwayTeam row = team /\ FullTimeResult row = "A")) /\
     (get_team_result row team = 1 <-> FullTimeResult row = "D") /\
     (get_team_result row team = 0 <->
      ~ ((HomeTeam row = team /\ FullTimeResult row = "H") \/
         (AwayTeam row = team /\ FullTimeResult row = "A")) /\
      FullTimeResult row <> "D") /\
     get_team_result row team = points_as_specified row team) /\
  (forall (filtered_df : list Match) (team : string) (row : Match),
     no_self_match filtered_df -> In row (team_all filtered_df team) ->
     get_team_result row team = points_as_specified row team) /\
  get_team_result sample_match_1 "A" = 3 /\
  get_team_result sample_match_1 "B" = 0 /\
  get_team_result sample_match_2 "A" = 1 /\
  get_team_result sample_match_2 "B" = 1 /\
  get_team_result (mkMatch 3 "2023/24" "A" "B" 0 1 "A") "B" = 3 /\
  get_team_result (mkMatch 3 "2023/24" "A" "B" 0 1 "A") "A" = 0.
Proof.
  split; [intros row team; apply get_team_result_cases|].
  split; [|split; [|repeat split]].
  - intros row team Hplays Hdiff.
    destruct (get_team_result_cases row team) as (H013 & H3 & H1 & Hspec).
    assert (Hwon : (HomeTeam row = team /\ FullTimeResult row = "H") \/
                   (HomeTeam row <> team /\ FullTimeResult row = "A") <->
                   (HomeTeam row = team /\ FullTimeResult row = "H") \/
                   (AwayTeam row = team /\ FullTimeResult row = "A")).
    { unfold plays_in in Hplays. split.
      - intros [H|(H & R)]; [now left | right].
        split; [tauto | exact R].
      - intros [H|(H & R)]; [now left | right].
        split; [congruence | exact R]. }
    split; [rewrite H3; exact Hwon|]. split; [exact H1|].
    split; [|now apply Hspec].
    rewrite <- Hwon, <- H3, <- H1. lia.
  - intros filtered_df team row Hself Hin.
    apply In_team_all in Hin. destruct Hin as (Hin & Hplays).
    apply get_team_result_cases; [now apply Hself | exact Hplays].
Qed.

(** The scoring of the first sample match for its home team. *)
Lemma get_team_result_points_sample :
  get_team_result sample_match_1 "A" = points_as_specified sample_match_1 "A".
Proof.
  apply (proj1 (proj2 (proj2 get_team_result_points))
           [sample_match_1; sample_match_2] "A" sample_match_1).
  - intros m [<-|[<-|[]]]; discriminate.
  - simpl. now left.
Defined.

(** * Further properties of the code *)

(** ** Order of strings *)

Lemma string_compare_refl (s : string) : String.compare s s = Eq.
Proof.
  pose proof (String.compare_antisym s s) as H.
  destruct (String.compare s s); simpl in H; congruence.
Qed.

Lemma ascii_compare_refl (a : Ascii.ascii) : Ascii.compare a a = Eq.
Proof. unfold Ascii.compare. apply N.compare_refl. Qed.

Lemma ascii_compare_lt_trans (a b c : Ascii.ascii) :
  Ascii.compare a b = Lt -> Ascii.compare b c = Lt ->
  Ascii.compare a c = Lt.
Proof. unfold Ascii.compare. rewrite !N.compare_lt_iff. lia. Qed.

Lemma string_compare_lt_trans (a b c : string) :
  String.compare a b = Lt -> String.compare b c = Lt ->
  String.compare a c = Lt.
Proof.
  revert b c. induction a as [|x a IH]; intros [|y b] [|z c]; simpl;
    try discriminate; try reflexivity.
  destruct (Ascii.compare x y) eqn:Exy;
    destruct (Ascii.compare y z) eqn:Eyz; try discriminate; intros H1 H2.
  - apply Ascii.compare_eq_iff in Exy, Eyz. subst.
    rewrite ascii_compare_refl. now apply (IH b).
  - apply Ascii.compare_eq_iff in Exy. subst. now rewrite Eyz.
  - apply Ascii.compare_eq_iff in Eyz. subst. now rewrite Exy.
  - now rewrite (ascii_compare_lt_trans x y z).
Qed.

Lemma string_leb_cases (a b : string) :
  String.leb a b = true <-> String.ltb a b = true \/ a = b.
Proof.
  unfold String.leb, String.ltb.
  destruct (String.compare a b) eqn:E; split; intros H;
    try discriminate; try tauto.
  - right. now apply String.compare_eq_iff.
  - destruct H as [H| ->]; [discriminate|].
    rewrite string_compare_refl in E. discriminate.
Qed.

Lemma string_ltb_trans (a b c : string) :
  String.ltb a b = true -> String.ltb b c = true -> String.ltb a c = true.
Proof.
  unfold String.ltb.
  destruct (String.compare a b) eqn:E1; try discriminate.
  destruct (String.compare b c) eqn:E2; try discriminate.
  now rewrite (string_compare_lt_trans a b c).
Qed.

Lemma string_leb_trans (a b c : string) :
  String.leb a b = true -> String.leb b c = true -> String.leb a c = true.
Proof.
  rewrite !string_leb_cases.
  intros [H1| ->] [H2| ->]; try tauto.
  left. now apply (string_ltb_trans a b c).
Qed.

Lemma string_ltb_irrefl (a : string) : String.ltb a a = false.
Proof. unfold String.ltb. now rewrite string_compare_refl. Qed.

Lemma sorted_nodup_strict (xs : list string) :
  StronglySorted (goes_before String.leb) xs -> NoDup xs ->
  strictly_ascending xs.
Proof.
  unfold strictly_ascending.
  induction 1 as [|x xs Hxs IH Hx]; intros Hnd; constructor.
  - apply IH. now apply NoDup_cons_iff in Hnd.
  - apply NoDup_cons_iff in Hnd. destruct Hnd as (Hnotin & _).
    rewrite Forall_forall in *. intros y Hy.
    pose proof (Hx y Hy) as Hle. unfold goes_before in Hle.
    apply string_leb_cases in Hle. destruct Hle as [Hlt| ->];
      [exact Hlt | contradiction].
Qed.

(** Sorting a duplicate-free list of names gives a strictly ascending
    list with the same members. *)
Lemma sorted_names (l : list string) :
  NoDup l ->
  strictly_ascending (stable_sort String.leb l) /\
  NoDup (stable_sort String.leb l) /\
  forall t, In t (stable_sort String.leb l) <-> In t l.
Proof.
  intros Hnd.
  pose proof (stable_sort_perm String.leb l) as Hperm.
  assert (Hnd' : NoDup (stable_sort String.leb l))
    by (eapply Permutation_NoDup; eassumption).
  split; [|split; [exact Hnd'|]].
  - apply sorted_nodup_strict; [|exact Hnd'].
    apply stable_sort_sorted;
      [apply String.leb_total | apply string_leb_trans].
  - intros t. split; intros H.
    + eapply Permutation_in; [apply Permutation_sym, Hperm | exact H].
    + eapply Permutation_in; [exact Hperm | exact H].
Qed.

(** X1.  The team list of the sidebar is in strictly ascending order,
    names no team twice, and holds exactly the teams that are the home or
    the away side of some record of the loaded frame. *)
Theorem all_teams_sorted_exact :
  forall df : DataFrame,
    strictly_ascending (all_teams df) /\
    NoDup (all_teams df) /\
    forall team : string,
      In team (all_teams df) <->
      exists m, In m (rows df) /\ plays_in team m.
Proof.
  intros df. unfold all_teams.
  destruct (sorted_names
              (nodup string_dec
                 (map HomeTeam (rows df) ++ map AwayTeam (rows df)))
              (NoDup_nodup _ _)) as (Hs & Hnd & Hin).
  split; [exact Hs|]. split; [exact Hnd|].
  intros team. rewrite Hin, nodup_In, in_app_iff, !in_map_iff.
  unfold plays_in. split.
  - intros [(m & E & Hm)|(m & E & Hm)]; exists m; tauto.
  - intros (m & Hm & [E|E]); [left | right]; now exists m.
Qed.

(** ** Sidebar defaults and the filters *)

Lemma fold_left_min_le (rest : list Z) (a : Z) :
  fold_left Z.min rest a <= a /\
  forall x, In x rest -> fold_left Z.min rest a <= x.
Proof.
  revert a. induction rest as [|y rest IH]; intros a; simpl.
  - split; [lia | contradiction].
  - destruct (IH (Z.min a y)) as (H1 & H2). split; [lia|].
    intros x [<-|Hx]; [lia | now apply H2].
Qed.

Lemma fold_left_max_ge (rest : list Z) (a : Z) :
  a <= fold_left Z.max rest a /\
  forall x, In x rest -> x <= fold_left Z.max rest a.
Proof.
  revert a. induction rest as [|y rest IH]; intros a; simpl.
  - split; [lia | contradiction].
  - destruct (IH (Z.max a y)) as (H1 & H2). split; [lia|].
    intros x [<-|Hx]; [lia | now apply H2].
Qed.

Lemma Series_min_le (xs : list Z) (lo x : Z) :
  Series_min xs = Some lo -> In x xs -> lo <= x.
Proof.
  destruct xs as [|a rest]; [discriminate|]. simpl. intros [= <-].
  destruct (fold_left_min_le rest a) as (H1 & H2).
  intros [<-|Hx]; [exact H1 | now apply H2].
Qed.

Lemma Series_max_ge (xs : list Z) (hi x : Z) :
  Series_max xs = Some hi -> In x xs -> x <= hi.
Proof.
  destruct xs as [|a rest]; [discriminate|]. simpl. intros [= <-].
  destruct (fold_left_max_ge rest a) as (H1 & H2).
  intros [<-|Hx]; [exact H1 | now apply H2].
Qed.

Lemma In_seasons (df : DataFrame) (r : Match) :
  In r (rows df) -> In (Season r) (seasons df).
Proof.
  intros Hr. unfold seasons.
  apply (sorted_names _ (NoDup_nodup _ _)).
  apply nodup_In, in_map, Hr.
Qed.

(** X2.  With the season and date widgets at their defaults (every
    season of the frame, the frame's first to last day), the season and
    date filters drop no record: the filtered frame is the loaded frame
    restricted by the team selection and the goals range alone. *)
Theorem default_season_and_dates_keep_all
  (df : DataFrame) (teams : list string) (d0 d1 lo hi : Z) :
  min_date df = Some d0 -> max_date df = Some d1 ->
  apply_filters df (mkFilters teams (seasons df) [d0; d1] lo hi)
  = filter (fun r =>
              (negb (truthy teams)
               || isin (HomeTeam r) teams || isin (AwayTeam r) teams)
              && ((lo <=? TotalGoals r) && (TotalGoals r <=? hi)))
      (rows df).
Proof.
  intros Hmin Hmax. rewrite apply_filters_keeps.
  apply filter_ext_in. intros r Hr.
  unfold keeps, team_mask, season_mask, date_mask, goals_mask. simpl.
  assert (Hs : isin (Season r) (seasons df) = true)
    by (apply isin_In, In_seasons, Hr).
  assert (Hd0 : d0 <= MatchDate r)
    by (eapply Series_min_le; [exact Hmin | apply in_map, Hr]).
  assert (Hd1 : MatchDate r <= d1)
    by (eapply Series_max_ge; [exact Hmax | apply in_map, Hr]).
  rewrite Hs, (proj2 (Z.leb_le _ _) Hd0), (proj2 (Z.leb_le _ _) Hd1).
  rewrite !orb_true_r, !andb_true_r, orb_assoc. reflexivity.
Qed.

(** The defaults on the two sample matches. *)
Lemma default_season_and_dates_sample :
  apply_filters sample_df (mkFilters ["A"] (seasons sample_df) [1; 2] 0 10)
  = filter (fun r =>
              (negb (truthy ["A"])
               || isin (HomeTeam r) ["A"] || isin (AwayTeam r) ["A"])
              && ((0 <=? TotalGoals r) && (TotalGoals r <=? 10)))
      (rows sample_df).
Proof.
  apply (default_season_and_dates_keep_all sample_df ["A"] 1 2 0 10);
    reflexivity.
Defined.

Lemma keeps_flags (df : DataFrame) (l : list Match) (f : Filters) :
  keeps (mkDataFrame (has_Season df) (has_MatchDate df) l) f = keeps df f.
Proof. reflexivity. Qed.

(** X3.  Filtering composes: applying a second set of selections to an
    already filtered frame gives the same records in either order, and
    applying the same selections again changes nothing. *)
Theorem apply_filters_compose :
  forall (df : DataFrame) (f g : Filters),
    let refilter (l : list Match) :=
      mkDataFrame (has_Season df) (has_MatchDate df) l in
    apply_filters (refilter (apply_filters df f)) g
    = apply_filters (refilter (apply_filters df g)) f /\
    apply_filters (refilter (apply_filters df f)) f = apply_filters df f.
Proof.
  intros df f g refilter. unfold refilter.
  rewrite !apply_filters_keeps. simpl rows. rewrite !keeps_flags.
  rewrite !filter_twice. split; apply filter_ext; intros r.
  - apply andb_comm.
  - now destruct (keeps df f r).
Qed.

(** ** Overview metrics *)

(** Two masks that never hold together select at most all the rows. *)
Lemma len_filter_disjoint {A : Type} (p q : A -> bool) (l : list A) :
  (forall x, p x = true -> q x = true -> False) ->
  0 <= len (filter p l) /\ 0 <= len (filter q l) /\
  len (filter p l) + len (filter q l) <= len l.
Proof.
  intros Hpq. unfold len. split; [lia|]. split; [lia|].
  induction l as [|x l IH]; [simpl; lia|].
  pose proof (Hpq x) as Hx. cbn [filter].
  destruct (p x), (q x); cbn [List.length]; rewrite ?Nat2Z.inj_succ;
    first [exfalso; now apply Hx | lia].
Qed.

Lemma result_is_disjoint (c1 c2 : string) (r : Match) :
  c1 <> c2 -> result_is c1 r = true -> result_is c2 r = true -> False.
Proof.
  unfold result_is. intros Hne H1 H2.
  apply String.eqb_eq in H1, H2. congruence.
Qed.

Lemma inject_Z_pos (n : Z) : 0 < n -> (0 < inject_Z n)%Q.
Proof.
  intros H. change (inject_Z 0 < inject_Z n)%Q. now rewrite <- Zlt_Qlt.
Qed.

Lemma inject_Z_nonneg (n : Z) : 0 <= n -> (0 <= inject_Z n)%Q.
Proof.
  intros H. change (inject_Z 0 <= inject_Z n)%Q. now rewrite <- Zle_Qle.
Qed.

Lemma inject_Z_nonzero (n : Z) : 0 < n -> ~ (inject_Z n == 0)%Q.
Proof.
  intros H E. apply inject_Z_pos in H. rewrite E in H.
  now apply Qlt_irrefl in H.
Qed.

Lemma ratio_bounds (a b n : Z) :
  0 < n -> 0 <= a -> 0 <= b -> a + b <= n ->
  (0 <= inject_Z a / inject_Z n * 100)%Q /\
  (0 <= inject_Z b / inject_Z n * 100)%Q /\
  (inject_Z a / inject_Z n * 100 + inject_Z b / inject_Z n * 100 <= 100)%Q.
Proof.
  intros Hn Ha Hb Hab.
  pose proof (inject_Z_pos n Hn) as Hn'.
  assert (Ha' : (0 <= inject_Z a / inject_Z n)%Q).
  { apply Qle_shift_div_l; [exact Hn'|]. rewrite Qmult_0_l.
    now apply inject_Z_nonneg. }
  assert (Hb' : (0 <= inject_Z b / inject_Z n)%Q).
  { apply Qle_shift_div_l; [exact Hn'|]. rewrite Qmult_0_l.
    now apply inject_Z_nonneg. }
  assert (Hab' : (inject_Z a / inject_Z n + inject_Z b / inject_Z n <= 1)%Q).
  { setoid_replace (inject_Z a / inject_Z n + inject_Z b / inject_Z n)%Q
      with (inject_Z (a + b) / inject_Z n)%Q.
    - apply Qle_shift_div_r; [exact Hn'|]. rewrite Qmult_1_l.
      now rewrite <- Zle_Qle.
    - rewrite inject_Z_plus. field. now apply inject_Z_nonzero. }
  repeat split; lra.
Qed.

(** X4.  The overview raises exactly when the filtered frame is empty,
    and then ZeroDivisionError.  Otherwise it reports the number of rows,
    which is positive, and the goal total, which is the home goals plus
    the away goals of all rows; the average is a number, and the home and
    the away win percentages are numbers from 0 to 100. *)
Theorem overview_metrics :
  forall filtered_df : list Match,
    match overview filtered_df with
    | Ok o =>
        filtered_df <> [] /\
        total_matches o = len filtered_df /\ 0 < total_matches o /\
        total_goals o
        = Series_sum (map FullTimeHomeGoals filtered_df)
          + Series_sum (map FullTimeAwayGoals filtered_df) /\
        exists avg h a : Q,
          avg_goals o = fin avg /\
          home_win_pct o = fin h /\ away_win_pct o = fin a /\
          (0 <= h <= 100)%Q /\ (0 <= a <= 100)%Q
    | Raise e => filtered_df = [] /\ e = ZeroDivisionError
    end.
Proof.
  intros [|m l]; [split; reflexivity|].
  set (filtered_df := m :: l).
  assert (Hn : 0 < len filtered_df) by (unfold len; simpl; lia).
  destruct (len_filter_disjoint (result_is "H") (result_is "A") filtered_df)
    as (Hh & Ha & Hha).
  { intros r. apply result_is_disjoint. discriminate. }
  assert (Hsum : forall frame : list Match,
             Series_sum (map TotalGoals frame)
             = Series_sum (map FullTimeHomeGoals frame)
               + Series_sum (map FullTimeAwayGoals frame)).
  { induction frame as [|r frame IH]; [reflexivity|].
    unfold Series_sum in *. cbn [map fold_right]. rewrite IH.
    unfold TotalGoals. lia. }
  unfold overview, truediv.
  destruct (len filtered_df =? 0) eqn:E; [apply Z.eqb_eq in E; lia|].
  cbn [bind total_matches total_goals avg_goals home_win_pct away_win_pct].
  split; [discriminate|]. split; [reflexivity|]. split; [exact Hn|].
  split; [apply Hsum|].
  destruct (ratio_bounds _ _ _ Hn Hh Ha Hha) as (B1 & B2 & B3).
  eexists _, _, _. split; [reflexivity|].
  split; [reflexivity|]. split; [reflexivity|].
  unfold of_int. change (inject_Z 100) with 100%Q.
  split; split; try assumption; lra.
Qed.

(** ** League table: which teams, and what each row holds *)

Lemma has_match_spec (filtered_df : list Match) (team : string) :
  has_match filtered_df team = true <->
  exists m, In m filtered_df /\ plays_in team m.
Proof.
  unfold has_match, plays_in, home_of, away_of. rewrite existsb_exists.
  split; intros (m & Hm & H); exists m; (split; [exact Hm|]).
  - apply orb_true_iff in H. now rewrite !String.eqb_eq in H.
  - apply orb_true_iff. now rewrite !String.eqb_eq.
Qed.

Lemma team_standing_has_match (filtered_df : list Match) (team : string) :
  has_match filtered_df team = true ->
  exists row, team_standing filtered_df team = Some row.
Proof.
  intros H. apply has_match_spec in H. destruct H as (m & Hm & Hp).
  assert (Hne : filter (home_of team) filtered_df <> [] \/
                filter (away_of team) filtered_df <> []).
  { destruct Hp as [E|E]; [left | right]; apply filter_nonempty;
      exists m; (split; [exact Hm|]); now apply String.eqb_eq. }
  unfold team_standing.
  destruct (_ =? 0) eqn:E; [|eexists; reflexivity].
  apply Z.eqb_eq in E.
  pose proof (len_nonneg (filter (home_of team) filtered_df)) as H1.
  pose proof (len_nonneg (filter (away_of team) filtered_df)) as H2.
  destruct Hne as [Hne|Hne]; exfalso; apply Hne, len_zero; lia.
Qed.

Lemma team_standing_no_match (filtered_df : list Match) (team : string) :
  has_match filtered_df team = false ->
  team_standing filtered_df team = None.
Proof.
  intros H. apply no_match_no_standing. intros m Hm Hp.
  assert (Ht : has_match filtered_df team = true)
    by (apply has_match_spec; now exists m).
  congruence.
Qed.

(** X5.  The league table has one row for each listed team that plays in
    at least one filtered match, in the order the teams are listed, and no
    other row; so a list without repeats gives a table without repeated
    teams. *)
Theorem league_table_teams :
  forall (filtered_df : list Match) (teams : list string),
    map Team (league_table filtered_df teams)
    = filter (has_match filtered_df) teams /\
    (forall team,
       In team (map Team (league_table filtered_df teams)) <->
       In team teams /\ exists m, In m filtered_df /\ plays_in team m) /\
    (NoDup teams -> NoDup (map Team (league_table filtered_df teams))).
Proof.
  intros filtered_df teams.
  assert (Hmap : map Team (league_table filtered_df teams)
                 = filter (has_match filtered_df) teams).
  { unfold league_table. rewrite league_table_loop_app. simpl.
    induction teams as [|t teams IH]; [reflexivity|]. simpl.
    destruct (has_match filtered_df t) eqn:E.
    - destruct (team_standing_has_match _ _ E) as (row & Hrow).
      rewrite Hrow. simpl.
      apply team_standing_Some in Hrow. destruct Hrow as (-> & _).
      now rewrite IH.
    - now rewrite (team_standing_no_match _ _ E). }
  split; [exact Hmap|]. rewrite Hmap. split.
  - intros team. now rewrite filter_In, has_match_spec.
  - apply NoDup_filter.
Qed.

Lemma Forall_league_table (P : Standing -> Prop)
  (filtered_df : list Match) (teams : list string) :
  (forall team row, team_standing filtered_df team = Some row -> P row) ->
  Forall P (league_table filtered_df teams).
Proof.
  intros H. apply Forall_forall. intros row Hrow.
  apply In_league_table in Hrow. destruct Hrow as (team & _ & Hrow).
  now apply (H team).
Qed.

(** Integer bounds survive the rounding to the nearest integer. *)
Lemma round_half_even_bounds (q : Q) (a b : Z) :
  (inject_Z a <= q)%Q -> (q <= inject_Z b)%Q ->
  a <= round_half_even q <= b.
Proof.
  destruct q as [n d]. unfold Qle, round_half_even.
  cbn [Qnum Qden inject_Z]. rewrite !Z.mul_1_r. intros Ha Hb.
  pose proof (Z.div_mod n (Z.pos d) ltac:(lia)) as Hdm.
  pose proof (Z.mod_pos_bound n (Z.pos d) ltac:(lia)) as Hmod.
  set (lo := n / Z.pos d) in *. set (r := n mod Z.pos d) in *.
  assert (Hlo : a <= lo) by nia.
  assert (Hhi : lo <= b) by nia.
  assert (Hstrict : 0 < r -> lo + 1 <= b) by nia.
  destruct (2 * r <? Z.pos d) eqn:E1; [lia|].
  apply Z.ltb_ge in E1.
  destruct (Z.pos d <? 2 * r) eqn:E2.
  - apply Z.ltb_lt in E2. lia.
  - destruct (Z.even lo); lia.
Qed.

Lemma points_per_game_bounds (points played : Z) :
  0 < played -> 0 <= points <= 3 * played ->
  exists q, round2 (fin (inject_Z points / inject_Z played)) = fin q /\
            (0 <= q <= 3)%Q.
Proof.
  intros Hp Hpts. pose proof (inject_Z_pos played Hp) as Hp'.
  set (x := (inject_Z points / inject_Z played)%Q).
  assert (H0 : (0 <= x)%Q).
  { apply Qle_shift_div_l; [exact Hp'|]. rewrite Qmult_0_l.
    apply inject_Z_nonneg. lia. }
  assert (H3 : (x <= 3)%Q).
  { apply Qle_shift_div_r; [exact Hp'|].
    change 3%Q with (inject_Z 3). rewrite <- inject_Z_mult, <- Zle_Qle.
    lia. }
  destruct (round_half_even_bounds (x * 100) 0 300) as (R0 & R3).
  { change (inject_Z 0) with 0%Q. lra. }
  { change (inject_Z 300) with 300%Q. lra. }
  eexists. split; [reflexivity|].
  unfold Qle. simpl. lia.
Qed.

Lemma team_standing_in_bounds (filtered_df : list Match) (team : string)
  (row : Standing) :
  team_standing filtered_df team = Some row -> row_in_bounds row.
Proof.
  unfold team_standing, row_in_bounds.
  set (home := filter (home_of team) filtered_df).
  set (away := filter (away_of team) filtered_df).
  destruct (len_filter_disjoint (result_is "H") (result_is "D") home)
    as (H1 & H2 & H3).
  { intros r. apply result_is_disjoint. discriminate. }
  destruct (len_filter_disjoint (result_is "A") (result_is "D") away)
    as (A1 & A2 & A3).
  { intros r. apply result_is_disjoint. discriminate. }
  pose proof (len_nonneg home) as Lh. pose proof (len_nonneg away) as La.
  destruct (_ =? 0) eqn:E; [discriminate|]. apply Z.eqb_neq in E.
  intros [= <-]. cbn [Played Wins Draws Losses GF GA GD Points
                        Points_per_Game].
  assert (Hplayed : 0 < len home + len away) by lia.
  repeat (split; [lia|]).
  rewrite (proj2 (Z.ltb_lt _ _) Hplayed).
  apply points_per_game_bounds; lia.
Qed.

(** X6.  Every row of the aggregated and of the ranked league table has
    played at least one match, has wins, draws and losses that are not
    negative, a goal difference equal to goals for minus goals against,
    between 0 and three times the matches played in points, and a
    points-per-game figure that is a number from 0 to 3. *)
Theorem league_rows_bounds :
  forall (filtered_df : list Match) (teams : list string),
    Forall row_in_bounds (league_table filtered_df teams) /\
    match league_df (league_table filtered_df teams) with
    | Ok out => Forall row_in_bounds out
    | Raise _ => league_table filtered_df teams = []
    end.
Proof.
  intros filtered_df teams.
  assert (Hall : Forall row_in_bounds (league_table filtered_df teams)).
  { apply Forall_league_table. intros team row.
    apply team_standing_in_bounds. }
  split; [exact Hall|].
  destruct (league_df (league_table filtered_df teams)) as [out|e] eqn:E.
  - eapply Forall_league_df; [|exact Hall|exact E].
    intros r p Hr. exact Hr.
  - eapply league_df_Raise, E.
Qed.

(** ** League table: totals over all teams *)

Lemma Series_sum_app (a b : list Z) :
  Series_sum (a ++ b) = Series_sum a + Series_sum b.
Proof. induction a as [|x a IH]; simpl; [reflexivity | rewrite IH; lia]. Qed.

Lemma Series_sum_perm (a b : list Z) :
  Permutation a b -> Series_sum a = Series_sum b.
Proof. induction 1; simpl; lia. Qed.

Lemma Series_sum_map_add {A : Type} (f g : A -> Z) (l : list A) :
  Series_sum (map (fun t => f t + g t) l)
  = Series_sum (map f l) + Series_sum (map g l).
Proof. induction l as [|x l IH]; simpl; [reflexivity | rewrite IH; lia]. Qed.

Lemma Series_sum_map_sub {A : Type} (c a b : A -> Z) (l : list A) :
  Forall (fun x => c x = a x - b x) l ->
  Series_sum (map c l) = Series_sum (map a l) - Series_sum (map b l).
Proof. induction 1 as [|x l Hx _ IH]; simpl; [reflexivity | lia]. Qed.

Lemma Series_sum_zero {A : Type} (l : list A) :
  Series_sum (map (fun _ => 0) l) = 0.
Proof. induction l as [|x l IH]; simpl; [reflexivity | exact IH]. Qed.

Lemma len_as_sum {A : Type} (l : list A) :
  len l = Series_sum (map (fun _ => 1) l).
Proof.
  unfold len. induction l as [|x l IH]; [reflexivity|].
  cbn [List.length map Series_sum fold_right].
  fold (Series_sum (map (fun _ : A => 1) l)).
  rewrite <- IH. lia.
Qed.

(** Among distinct names exactly one equals a listed name. *)
Lemma Series_sum_indicator (x : string) (v : Z) (teams : list string) :
  NoDup teams -> In x teams ->
  Series_sum (map (fun t => if String.eqb x t then v else 0) teams) = v.
Proof.
  induction 1 as [|t teams Hnotin Hnd IH]; [contradiction|].
  intros Hin. simpl. destruct (String.eqb_spec x t) as [->|Hne].
  - assert (Hrest : Series_sum (map (fun t0 => if String.eqb t t0 then v else 0)
                                  teams) = 0).
    { clear IH Hin Hnd. induction teams as [|u teams IHt]; [reflexivity|].
      simpl. destruct (String.eqb_spec t u) as [->|_].
      - exfalso. apply Hnotin. now left.
      - apply IHt. intros H. apply Hnotin. now right. }
    rewrite Hrest. lia.
  - destruct Hin as [->|Hin]; [contradiction|]. now rewrite IH.
Qed.

(** Summing a column group by group over distinct keys that cover the
    frame gives the column's total. *)
Lemma Series_sum_by_key (key : Match -> string) (g : Match -> Z)
  (teams : list string) (l : list Match) :
  NoDup teams -> (forall m, In m l -> In (key m) teams) ->
  Series_sum
    (map (fun t =>
            Series_sum (map g (filter (fun r => String.eqb (key r) t) l)))
       teams)
  = Series_sum (map g l).
Proof.
  intros Hnd. induction l as [|m l IH]; intros Hcover.
  - simpl. apply Series_sum_zero.
  - rewrite (map_ext _
               (fun t =>
                  (if String.eqb (key m) t then g m else 0)
                  + Series_sum
                      (map g (filter (fun r => String.eqb (key r) t) l)))).
    + rewrite Series_sum_map_add, Series_sum_indicator, IH.
      * reflexivity.
      * intros m' Hm'. apply Hcover. now right.
      * exact Hnd.
      * apply Hcover. now left.
    + intros t. simpl. destruct (String.eqb (key m) t); reflexivity.
Qed.

Lemma team_standing_None (filtered_df : list Match) (team : string) :
  team_standing filtered_df team = None ->
  filter (home_of team) filtered_df = [] /\
  filter (away_of team) filtered_df = [].
Proof.
  unfold team_standing. destruct (_ =? 0) eqn:E; [|discriminate].
  intros _. apply Z.eqb_eq in E.
  pose proof (len_nonneg (filter (home_of team) filtered_df)).
  pose proof (len_nonneg (filter (away_of team) filtered_df)).
  split; apply len_zero; lia.
Qed.

(** A column of the table summed over its rows is the per-team value
    summed over the listed teams, when the teams without a row count 0. *)
Lemma league_table_sum (col : Standing -> Z) (val : string -> Z)
  (filtered_df : list Match) (teams : list string) :
  (forall team row,
     team_standing filtered_df team = Some row -> col row = val team) ->
  (forall team, team_standing filtered_df team = None -> val team = 0) ->
  Series_sum (map col (league_table filtered_df teams))
  = Series_sum (map val teams).
Proof.
  intros Hsome Hnone. unfold league_table.
  rewrite league_table_loop_app. simpl.
  induction teams as [|t teams IH]; [reflexivity|]. simpl.
  destruct (team_standing filtered_df t) as [row|] eqn:E; simpl.
  - now rewrite (Hsome t row E), IH.
  - now rewrite (Hnone t E), IH.
Qed.

Lemma league_df_column (col : Standing -> Z)
  (league_table out : list Standing) :
  (forall r p, col (with_Position r p) = col r) ->
  league_df league_table = Ok out ->
  Series_sum (map col out) = Series_sum (map col league_table).
Proof.
  intros Hcol Hdf.
  assert (Hne : league_table <> []) by (intros ->; discriminate).
  rewrite league_df_Ok in Hdf by exact Hne. injection Hdf as <-.
  rewrite map_set_Position by exact Hcol.
  apply Series_sum_perm, Permutation_map, Permutation_sym, stable_sort_perm.
Qed.

Lemma league_table_totals (filtered_df : list Match) (teams : list string) :
  NoDup teams ->
  (forall m, In m filtered_df ->
             In (HomeTeam m) teams /\ In (AwayTeam m) teams) ->
  let table := league_table filtered_df teams in
  Series_sum (map GF table) = Series_sum (map TotalGoals filtered_df) /\
  Series_sum (map GA table) = Series_sum (map TotalGoals filtered_df) /\
  Series_sum (map GD table) = 0 /\
  Series_sum (map Played table) = 2 * len filtered_df.
Proof.
  intros Hnd Hcover table.
  assert (Hh : forall g,
             Series_sum
               (map (fun t => Series_sum
                                (map g (filter (home_of t) filtered_df)))
                  teams) = Series_sum (map g filtered_df)).
  { intros g. apply (Series_sum_by_key HomeTeam g); [exact Hnd|].
    intros m Hm. now apply Hcover. }
  assert (Ha : forall g,
             Series_sum
               (map (fun t => Series_sum
                                (map g (filter (away_of t) filtered_df)))
                  teams) = Series_sum (map g filtered_df)).
  { intros g. apply (Series_sum_by_key AwayTeam g); [exact Hnd|].
    intros m Hm. now apply Hcover. }
  assert (Htotal : Series_sum (map TotalGoals filtered_df)
                   = Series_sum (map FullTimeHomeGoals filtered_df)
                     + Series_sum (map FullTimeAwayGoals filtered_df))
    by apply (Series_sum_map_add FullTimeHomeGoals FullTimeAwayGoals).
  assert (HGF : Series_sum (map GF table)
                = Series_sum (map TotalGoals filtered_df)).
  { unfold table.
    rewrite (league_table_sum GF (goals_scored filtered_df)).
    - unfold goals_scored.
      rewrite (Series_sum_map_add
                 (fun t => Series_sum (map FullTimeHomeGoals
                                         (filter (home_of t) filtered_df)))
                 (fun t => Series_sum (map FullTimeAwayGoals
                                         (filter (away_of t) filtered_df)))).
      rewrite Hh, Ha. lia.
    - intros team row Hrow. unfold team_standing in Hrow.
      destruct (_ =? 0); [discriminate|]. now injection Hrow as <-.
    - intros team Hnone. apply team_standing_None in Hnone.
      unfold goals_scored. destruct Hnone as (-> & ->). reflexivity. }
  assert (HGA : Series_sum (map GA table)
                = Series_sum (map TotalGoals filtered_df)).
  { unfold table.
    rewrite (league_table_sum GA (goals_conceded filtered_df)).
    - unfold goals_conceded.
      rewrite (Series_sum_map_add
                 (fun t => Series_sum (map FullTimeAwayGoals
                                         (filter (home_of t) filtered_df)))
                 (fun t => Series_sum (map FullTimeHomeGoals
                                         (filter (away_of t) filtered_df)))).
      rewrite Hh, Ha. lia.
    - intros team row Hrow. unfold team_standing in Hrow.
      destruct (_ =? 0); [discriminate|]. now injection Hrow as <-.
    - intros team Hnone. apply team_standing_None in Hnone.
      unfold goals_conceded. destruct Hnone as (-> & ->). reflexivity. }
  split; [exact HGF|]. split; [exact HGA|]. split.
  - rewrite (Series_sum_map_sub GD GF GA); [lia|].
    unfold table. apply Forall_league_table. intros team row Hrow.
    apply team_standing_in_bounds in Hrow.
    destruct Hrow as (_ & _ & _ & _ & H & _). exact H.
  - unfold table.
    rewrite (league_table_sum Played
               (fun t => len (filter (home_of t) filtered_df)
                         + len (filter (away_of t) filtered_df))).
    + rewrite (Series_sum_map_add
                 (fun t => len (filter (home_of t) filtered_df))
                 (fun t => len (filter (away_of t) filtered_df))).
      rewrite (map_ext (fun t => len (filter (home_of t) filtered_df))
                 (fun t => Series_sum
                             (map (fun _ => 1)
                                (filter (home_of t) filtered_df))))
        by (intros t; apply len_as_sum).
      rewrite (map_ext (fun t => len (filter (away_of t) filtered_df))
                 (fun t => Series_sum
                             (map (fun _ => 1)
                                (filter (away_of t) filtered_df))))
        by (intros t; apply len_as_sum).
      rewrite Hh, Ha, <- len_as_sum. lia.
    + intros team row Hrow. now apply team_standing_Some in Hrow.
    + intros team Hnone. apply team_standing_None in Hnone.
      destruct Hnone as (-> & ->). reflexivity.
Qed.

Lemma apply_filters_incl (df : DataFrame) (f : Filters) (m : Match) :
  In m (apply_filters df f) -> In m (rows df).
Proof. rewrite apply_filters_keeps, filter_In. tauto. Qed.

Lemma In_all_teams (df : DataFrame) (m : Match) :
  In m (rows df) ->
  In (HomeTeam m) (all_teams df) /\ In (AwayTeam m) (all_teams df).
Proof.
  intros Hm. unfold all_teams.
  split; apply (sorted_names _ (NoDup_nodup _ _)), nodup_In, in_app_iff;
    [left | right]; now apply in_map.
Qed.

Lemma NoDup_all_teams (df : DataFrame) : NoDup (all_teams df).
Proof. apply (sorted_names _ (NoDup_nodup _ _)). Qed.

(** X7.  When no team is selected, so that the table lists every team of
    the frame, its columns add up over the rows: goals for and goals
    against both total the goals of the filtered matches, the goal
    differences total 0 and the matches played total twice the number of
    filtered matches, in the aggregated table and in the ranked one. *)
Theorem league_totals_without_selection (df : DataFrame) (f : Filters) :
  selected_teams f = [] ->
  let filtered_df := apply_filters df f in
  let table := league_table filtered_df (teams_to_show df f) in
  (Series_sum (map GF table) = Series_sum (map TotalGoals filtered_df) /\
   Series_sum (map GA table) = Series_sum (map TotalGoals filtered_df) /\
   Series_sum (map GD table) = 0 /\
   Series_sum (map Played table) = 2 * len filtered_df) /\
  forall out,
    league_df table = Ok out ->
    Series_sum (map GF out) = Series_sum (map TotalGoals filtered_df) /\
    Series_sum (map GA out) = Series_sum (map TotalGoals filtered_df) /\
    Series_sum (map GD out) = 0 /\
    Series_sum (map Played out) = 2 * len filtered_df.
Proof.
  intros Hsel filtered_df table.
  assert (Htot : Series_sum (map GF table)
                 = Series_sum (map TotalGoals filtered_df) /\
                 Series_sum (map GA table)
                 = Series_sum (map TotalGoals filtered_df) /\
                 Series_sum (map GD table) = 0 /\
                 Series_sum (map Played table) = 2 * len filtered_df).
  { unfold table, teams_to_show. rewrite Hsel. cbn [truthy].
    apply league_table_totals; [apply NoDup_all_teams|].
    intros m Hm. apply In_all_teams. eapply apply_filters_incl, Hm. }
  split; [exact Htot|].
  intros out Hout.
  rewrite (league_df_column GF table out), (league_df_column GA table out),
    (league_df_column GD table out), (league_df_column Played table out);
    try exact Hout; try (intros r p; reflexivity).
  exact Htot.
Qed.

(** The totals on the two sample matches without a team selection. *)
Lemma league_totals_sample :
  let filtered_df := apply_filters sample_df (mkFilters [] [] [] 0 10) in
  let table := league_table filtered_df
                 (teams_to_show sample_df (mkFilters [] [] [] 0 10)) in
  (Series_sum (map GF table) = Series_sum (map TotalGoals filtered_df) /\
   Series_sum (map GA table) = Series_sum (map TotalGoals filtered_df) /\
   Series_sum (map GD table) = 0 /\
   Series_sum (map Played table) = 2 * len filtered_df) /\
  forall out,
    league_df table = Ok out ->
    Series_sum (map GF out) = Series_sum (map TotalGoals filtered_df) /\
    Series_sum (map GA out) = Series_sum (map TotalGoals filtered_df) /\
    Series_sum (map GD out) = 0 /\
    Series_sum (map Played out) = 2 * len filtered_df.
Proof.
  apply (league_totals_without_selection sample_df
           (mkFilters [] [] [] 0 10)).
  reflexivity.
Defined.

(** ** League table: positions follow the ranking *)

Lemma StronglySorted_nth_error {A : Type} (R : A -> A -> Prop)
  (l : list A) (i j : nat) (a b : A) :
  StronglySorted R l -> (i < j)%nat ->
  nth_error l i = Some a -> nth_error l j = Some b -> R a b.
Proof.
  intros Hs. revert i j. induction Hs as [|x l Hs IH Hx]; intros i j Hij.
  - destruct i; discriminate.
  - destruct j as [|j]; [lia|]. destruct i as [|i]; simpl.
    + intros [= <-] Hb. rewrite Forall_forall in Hx.
      apply Hx. eapply nth_error_In, Hb.
    + apply IH. lia.
Qed.

Lemma league_df_nth_error (league_table out : list Standing) (i : nat)
  (x : Standing) :
  league_df league_table = Ok out -> nth_error out i = Some x ->
  exists r, nth_error (stable_sort rank_before league_table) i = Some r /\
            x = with_Position r (1 + Z.of_nat i).
Proof.
  intros Hdf Hx.
  assert (Hne : league_table <> []) by (intros ->; discriminate).
  rewrite league_df_Ok in Hdf by exact Hne. injection Hdf as <-.
  rewrite nth_error_set_Position in Hx.
  destruct (nth_error (stable_sort rank_before league_table) i) as [r|];
    [|discriminate].
  injection Hx as <-. now exists r.
Qed.

(** X8.  In the ranked table a row with a smaller position never has
    fewer points than a row with a larger one, and with equal points never
    a smaller goal difference; so the row at position 1 has the most
    points of the table. *)
Theorem positions_follow_ranking :
  forall league_table : list Standing,
    match league_df league_table with
    | Ok out =>
        (forall r s : Standing,
           In r out -> In s out -> Position r < Position s ->
           ranked_before r s) /\
        (forall top s : Standing,
           In top out -> In s out -> Position top = 1 ->
           Points s <= Points top)
    | Raise _ => league_table = []
    end.
Proof.
  intros league_table.
  destruct (league_df league_table) as [out|e] eqn:E;
    [|eapply league_df_Raise, E].
  assert (Hsorted : StronglySorted ranked_before
                      (stable_sort rank_before league_table)).
  { apply StronglySorted_ranked, stable_sort_sorted;
      [apply rank_before_total | apply rank_before_trans]. }
  assert (Hrank : forall r s : Standing,
             In r out -> In s out -> Position r < Position s ->
             ranked_before r s).
  { intros r s Hr Hs Hlt.
    apply In_nth_error in Hr, Hs.
    destruct Hr as (i & Hi), Hs as (j & Hj).
    destruct (league_df_nth_error _ _ _ _ E Hi) as (r0 & Hr0 & ->).
    destruct (league_df_nth_error _ _ _ _ E Hj) as (s0 & Hs0 & ->).
    cbn [Position with_Position] in Hlt.
    assert (Hij : (i < j)%nat) by lia.
    exact (StronglySorted_nth_error _ _ _ _ _ _ Hsorted Hij Hr0 Hs0). }
  split; [exact Hrank|].
  intros top s Htop Hs Hone.
  destruct (Z.eq_dec (Position s) 1) as [Hs1|Hs1].
  - apply In_nth_error in Htop, Hs.
    destruct Htop as (i & Hi), Hs as (j & Hj).
    destruct (league_df_nth_error _ _ _ _ E Hi) as (r0 & Hr0 & ->).
    destruct (league_df_nth_error _ _ _ _ E Hj) as (s0 & Hs0 & ->).
    cbn [Position with_Position] in Hone, Hs1.
    assert (i = j) by lia. subst j.
    rewrite Hr0 in Hs0. injection Hs0 as <-. reflexivity.
  - assert (Hpos : 1 <= Position s).
    { apply In_nth_error in Hs. destruct Hs as (j & Hj).
      destruct (league_df_nth_error _ _ _ _ E Hj) as (s0 & _ & ->).
      cbn [Position with_Position]. lia. }
    assert (Hlt : Position top < Position s) by lia.
    specialize (Hrank top s Htop Hs Hlt). unfold ranked_before in Hrank.
    lia.
Qed.

(** ** League tab: errors and top performers *)

Section FirstBest.

Context {C : Type} (lt : C -> C -> bool) (col : Standing -> C).
Context (good : C -> Prop).

Hypothesis lt_trans :
  forall a b c, good a -> good b -> good c ->
                lt a b = true -> lt b c = true -> lt a c = true.
Hypothesis lt_below :
  forall a b c, good a -> good b -> good c ->
                lt a b = false -> lt a c = true -> lt b c = true.

(** The fold of [loc_idxmax] keeps the first row that no later row
    beats: either the start, or a later row that beats the start and
    every row in front of it. *)
Lemma fold_first_best (rest : list Standing) (r0 : Standing) :
  good (col r0) -> Forall (fun x => good (col x)) rest ->
  let best :=
    fold_left (fun best x => if lt (col best) (col x) then x else best)
      rest r0 in
  (best = r0 /\ Forall (fun x => lt (col r0) (col x) = false) rest) \/
  (exists l1 l2,
     rest = l1 ++ best :: l2 /\ lt (col r0) (col best) = true /\
     Forall (fun x => lt (col x) (col best) = true) l1 /\
     Forall (fun x => lt (col best) (col x) = false) l2).
Proof.
  intros Hr0 Hrest. revert r0 Hr0.
  induction Hrest as [|x rest Hx Hrest IH]; intros r0 Hr0; simpl.
  - left. split; [reflexivity | constructor].
  - destruct (lt (col r0) (col x)) eqn:E.
    + right.
      destruct (IH x Hx)
        as [(Hb & Hall)|(l1 & l2 & Hsplit & Hlt & H1 & H2)].
      * exists [], rest. rewrite Hb. simpl.
        repeat split; [exact E | constructor | exact Hall].
      * exists (x :: l1), l2. rewrite Hsplit at 1. simpl.
        assert (Hgb : good (col (fold_left
                      (fun best x0 =>
                         if lt (col best) (col x0) then x0 else best)
                      rest x))).
        { rewrite Forall_forall in Hrest. apply Hrest.
          rewrite Hsplit at 2. apply in_or_app. right. now left. }
        repeat split; try assumption.
        -- now apply (lt_trans _ (col x)).
        -- constructor; assumption.
    + destruct (IH r0 Hr0) as [(Hb & Hall)|(l1 & l2 & Hsplit & Hlt & H1 & H2)].
      * left. split; [exact Hb|]. constructor; assumption.
      * right. exists (x :: l1), l2. rewrite Hsplit at 1. simpl.
        assert (Hgb : good (col (fold_left
                      (fun best x0 =>
                         if lt (col best) (col x0) then x0 else best)
                      rest r0))).
        { rewrite Forall_forall in Hrest. apply Hrest.
          rewrite Hsplit at 2. apply in_or_app. right. now left. }
        repeat split; try assumption.
        constructor; [|assumption].
        now apply (lt_below (col r0)).
Qed.

Lemma loc_idxmax_first_best (league_df : list Standing) :
  Forall (fun x => good (col x)) league_df ->
  match loc_idxmax lt col league_df with
  | Ok best => first_best lt col league_df best
  | Raise e => league_df = [] /\ e = ValueError
  end.
Proof.
  intros Hgood. destruct league_df as [|r0 rest]; [now split|].
  apply Forall_cons_iff in Hgood. destruct Hgood as (Hr0 & Hrest).
  unfold loc_idxmax, first_best.
  destruct (fold_first_best rest r0 Hr0 Hrest)
    as [(Hb & Hall)|(l1 & l2 & Hsplit & Hlt & H1 & H2)].
  - exists [], rest. rewrite Hb. simpl.
    repeat split; [constructor | exact Hall].
  - exists (r0 :: l1), l2. rewrite Hsplit at 1. simpl.
    repeat split; [constructor; assumption | exact H2].
Qed.

End FirstBest.


Lemma flt_fin_true (a b : Q) : flt (fin a) (fin b) = true <-> (a < b)%Q.
Proof.
  unfold flt. destruct (Qlt_le_dec a b) as [H|H]; split; intros H';
    try reflexivity; try assumption; try discriminate.
  exfalso. exact (Qle_not_lt _ _ H H').
Qed.

Lemma flt_fin_false (a b : Q) : flt (fin a) (fin b) = false <-> (b <= a)%Q.
Proof.
  unfold flt. destruct (Qlt_le_dec a b) as [H|H]; split; intros H';
    try reflexivity; try assumption; try discriminate.
  exfalso. exact (Qle_not_lt _ _ H' H).
Qed.

Lemma league_df_nonempty (league_table out : list Standing) :
  league_df league_table = Ok out -> out <> [].
Proof.
  intros Hdf Hnil.
  assert (Hne : league_table <> []) by (intros ->; discriminate).
  rewrite league_df_Ok in Hdf by exact Hne. injection Hdf as Hout.
  apply (f_equal (map Position)) in Hout.
  rewrite map_Position_set_Position, range_from, Hnil in Hout.
  apply (f_equal (@List.length Z)) in Hout.
  rewrite length_map, length_seq in Hout. simpl in Hout.
  apply Hne, Permutation_nil, Permutation_sym.
  apply length_zero_iff_nil in Hout. rewrite <- Hout.
  apply stable_sort_perm.
Qed.

(** X9.  The league tab fails only on an empty league table, and then
    with the KeyError of the sort: once the table is ranked, the three
    top-performer lookups always find a row.  The top scorer is the
    first row of the ranked table with the largest goals for, the best
    defence the first with the smallest goals against, the most efficient
    the first with the largest points per game. *)
Theorem league_tab_top_performers :
  forall (df : DataFrame) (f : Filters) (filtered_df : list Match),
    match league_tab df f filtered_df with
    | Ok tab =>
        league_df (league_table filtered_df (teams_to_show df f))
        = Ok (table tab) /\
        first_best Z.ltb GF (table tab) (top_scorer tab) /\
        first_best Z.gtb GA (table tab) (best_defense tab) /\
        first_best flt Points_per_Game (table tab) (most_efficient tab)
    | Raise e =>
        e = KeyError "Points" /\
        league_table filtered_df (teams_to_show df f) = []
    end.
Proof.
  intros df f filtered_df. unfold league_tab.
  set (lt := league_table filtered_df (teams_to_show df f)).
  destruct (league_df lt) as [out|e] eqn:E; cbn [bind].
  2:{ pose proof (league_df_Raise _ _ E) as Hnil. split; [|exact Hnil].
      rewrite Hnil in E. now injection E as <-. }
  assert (Hbounds : Forall row_in_bounds out).
  { eapply Forall_league_df; [| |exact E].
    - intros r p Hr. exact Hr.
    - apply Forall_league_table. intros team row.
      apply team_standing_in_bounds. }
  pose proof (loc_idxmax_first_best Z.ltb GF (fun _ => True)) as HGF.
  specialize (HGF ltac:(intros; lia) ltac:(intros; lia) out).
  pose proof (loc_idxmax_first_best Z.gtb GA (fun _ => True)) as HGA.
  specialize (HGA ltac:(intros; lia) ltac:(intros; lia) out).
  pose proof (loc_idxmax_first_best flt Points_per_Game
                (fun c => exists q, c = fin q)) as HPPG.
  specialize (HPPG
    ltac:(intros a b c (x & ->) (y & ->) (z & ->);
          rewrite !flt_fin_true; apply Qlt_trans)
    ltac:(intros a b c (x & ->) (y & ->) (z & ->);
          rewrite flt_fin_false, !flt_fin_true; apply Qle_lt_trans)
    out).
  assert (Htrue : Forall (fun x : Standing => True) out)
    by (apply Forall_forall; intros; exact I).
  specialize (HGF Htrue). specialize (HGA Htrue).
  assert (Hfin : Forall (fun x => exists q, Points_per_Game x = fin q) out).
  { eapply Forall_impl; [|exact Hbounds].
    intros s (_ & _ & _ & _ & _ & _ & q & Hq & _). now exists q. }
  specialize (HPPG Hfin).
  pose proof (league_df_nonempty _ _ E) as Hout.
  destruct (loc_idxmax Z.ltb GF out) as [top|e1];
    [|destruct HGF as (Hnil & _); contradiction].
  destruct (loc_idxmax Z.gtb GA out) as [best|e2];
    [|destruct HGA as (Hnil & _); contradiction].
  destruct (loc_idxmax flt Points_per_Game out) as [most|e3];
    [|destruct HPPG as (Hnil & _); contradiction].
  cbn [bind table top_scorer best_defense most_efficient].
  repeat split; assumption.
Qed.

(** ** League table: row colours *)

Lemma count_occ_map_filter {A B : Type}
  (dec : forall x y : B, {x = y} + {x <> y}) (g : A -> B) (v : B)
  (l : list A) :
  count_occ dec (map g l) v
  = List.length (filter (fun x => if dec (g x) v then true else false) l).
Proof.
  induction l as [|x l IH]; simpl; [reflexivity|].
  destruct (dec (g x) v); simpl; now rewrite IH.
Qed.

Lemma length_filter_map {A B : Type} (g : A -> B) (P : B -> bool)
  (l : list A) :
  List.length (filter (fun x => P (g x)) l)
  = List.length (filter P (map g l)).
Proof.
  induction l as [|x l IH]; simpl; [reflexivity|].
  destruct (P (g x)); simpl; now rewrite IH.
Qed.

(** How many of 1, ..., n lie between [lo] and [hi]. *)
Lemma count_interval (lo hi : Z) (n : nat) :
  1 <= lo ->
  Z.of_nat
    (List.length
       (filter (fun i => (lo <=? Z.of_nat i) && (Z.of_nat i <=? hi))
          (seq 1 n)))
  = Z.max 0 (Z.min hi (Z.of_nat n) - lo + 1).
Proof.
  intros Hlo. induction n as [|n IH]; [simpl; lia|].
  rewrite seq_S, filter_app, length_app, Nat2Z.inj_add, IH.
  cbn [filter]. replace (Z.of_nat (1 + n)) with (Z.of_nat n + 1) by lia.
  destruct (Z.leb_spec lo (Z.of_nat n + 1));
    destruct (Z.leb_spec (Z.of_nat n + 1) hi);
    cbn [andb List.length]; lia.
Qed.

Lemma league_df_Position_column (league_table out : list Standing) :
  league_df league_table = Ok out ->
  map Position out = map Z.of_nat (seq 1 (List.length out)).
Proof.
  intros Hdf.
  assert (Hne : league_table <> []) by (intros ->; discriminate).
  rewrite league_df_Ok in Hdf by exact Hne. injection Hdf as Hout.
  pose proof (f_equal (map Position) Hout) as Hpos.
  rewrite map_Position_set_Position in Hpos.
  assert (Hlen : List.length out
                 = List.length (stable_sort rank_before league_table)).
  { rewrite <- (length_map Position out), <- Hpos, range_from.
    now rewrite length_map, length_seq. }
  rewrite <- Hpos, Hlen, Z.add_comm. apply range_one.
Qed.

(** The number of rows of a ranked table whose position satisfies [P]. *)
Lemma count_positions (league_table out : list Standing) (P : Z -> bool) :
  league_df league_table = Ok out ->
  List.length (filter (fun r => P (Position r)) out)
  = List.length (filter (fun i => P (Z.of_nat i))
                   (seq 1 (List.length out))).
Proof.
  intros Hdf.
  rewrite (length_filter_map Position P out).
  rewrite (league_df_Position_column _ _ Hdf).
  now rewrite <- (length_filter_map Z.of_nat P).
Qed.

Lemma color_positions_style (league_df : list Standing) (row : Standing)
  (style : string) :
  (if list_eq_dec string_dec (color_positions league_df row)
        (repeat style row_len)
   then true else false)
  = if Position row <=? 4 then String.eqb style champions_league
    else if Position row <=? 6 then String.eqb style europa_league
    else if len league_df - 2 <=? Position row
         then String.eqb style relegation
         else String.eqb style "".
Proof.
  assert (Hrep : forall a b : string,
             (if list_eq_dec string_dec (repeat a row_len)
                   (repeat b row_len)
              then true else false) = String.eqb b a).
  { intros a b.
    destruct (list_eq_dec string_dec (repeat a row_len) (repeat b row_len))
      as [E|E]; destruct (String.eqb_spec b a) as [E'|E'];
      try reflexivity.
    - exfalso. apply E'. simpl in E. now injection E.
    - exfalso. apply E. now rewrite E'. }
  unfold color_positions.
  destruct (Position row <=? 4); [apply Hrep|].
  destruct (Position row <=? 6); [apply Hrep|].
  destruct (len league_df - 2 <=? Position row); apply Hrep.
Qed.

(** X10.  Of the n rows of a ranked table, min(4, n) are coloured green,
    min(2, max(0, n - 4)) yellow and min(3, max(0, n - 6)) red: the red
    band has its three rows only from nine rows on, and no row up to
    six. *)
Theorem row_colour_counts :
  forall league_table : list Standing,
    match league_df league_table with
    | Ok out =>
        let count style :=
          Z.of_nat (count_occ (list_eq_dec string_dec) (styled_df out)
                      (repeat style row_len)) in
        count champions_league = Z.min 4 (len out) /\
        count europa_league = Z.min 2 (Z.max 0 (len out - 4)) /\
        count relegation = Z.min 3 (Z.max 0 (len out - 6))
    | Raise _ => league_table = []
    end.
Proof.
  intros league_table.
  destruct (league_df league_table) as [out|e] eqn:E;
    [|eapply league_df_Raise, E].
  cbv zeta. unfold styled_df. rewrite !count_occ_map_filter.
  assert (Hcount : forall (style : string) (P : Z -> bool),
             (forall p, (if p <=? 4 then String.eqb style champions_league
                         else if p <=? 6 then String.eqb style europa_league
                         else if len out - 2 <=? p
                              then String.eqb style relegation
                              else String.eqb style "") = P p) ->
             List.length
               (filter (fun x =>
                          if list_eq_dec string_dec (color_positions out x)
                               (repeat style row_len)
                          then true else false) out)
             = List.length (filter (fun i => P (Z.of_nat i))
                              (seq 1 (List.length out)))).
  { intros style P HP.
    rewrite <- (count_positions _ _ P E). f_equal.
    apply filter_ext. intros r. rewrite color_positions_style. apply HP. }
  split; [|split].
  - rewrite (Hcount champions_league (fun p => p <=? 4)).
    + rewrite (filter_ext_in _
                 (fun i => (1 <=? Z.of_nat i) && (Z.of_nat i <=? 4))).
      * rewrite count_interval by lia. unfold len. lia.
      * intros i Hi. apply in_seq in Hi.
        destruct (Z.leb_spec 1 (Z.of_nat i)); [reflexivity | lia].
    + intros p.
      destruct (p <=? 4), (p <=? 6), (len out - 2 <=? p); reflexivity.
  - rewrite (Hcount europa_league (fun p => (5 <=? p) && (p <=? 6))).
    + rewrite count_interval by lia. unfold len. lia.
    + intros p. destruct (Z.leb_spec p 4), (Z.leb_spec p 6),
        (Z.leb_spec 5 p), (Z.leb_spec (len out - 2) p);
        try reflexivity; lia.
  - rewrite (Hcount relegation
               (fun p => (7 <=? p) && (len out - 2 <=? p))).
    + rewrite (filter_ext_in _
                 (fun i => (Z.max 7 (len out - 2) <=? Z.of_nat i)
                           && (Z.of_nat i <=? len out))).
      * rewrite count_interval by lia. unfold len. lia.
      * intros i Hi. apply in_seq in Hi. unfold len.
        destruct (Z.leb_spec 7 (Z.of_nat i)),
          (Z.leb_spec (Z.of_nat (List.length out) - 2) (Z.of_nat i)),
          (Z.leb_spec (Z.max 7 (Z.of_nat (List.length out) - 2))
             (Z.of_nat i)),
          (Z.leb_spec (Z.of_nat i) (Z.of_nat (List.length out)));
          try reflexivity; lia.
    + intros p. destruct (Z.leb_spec p 4), (Z.leb_spec p 6),
        (Z.leb_spec (len out - 2) p), (Z.leb_spec 7 p);
        try reflexivity; lia.
Qed.

(** ** Home performance *)


(** ** Team deep dive *)

Lemma cumsum_from_last (total d : Z) (xs : list Z) :
  last (cumsum_from total xs) d
  = match xs with
    | [] => d
    | _ :: _ => total + Series_sum xs
    end.
Proof.
  revert total. induction xs as [|x xs IH]; intros total; [reflexivity|].
  specialize (IH (total + x)).
  destruct xs as [|y xs]; [simpl; lia|].
  change (cumsum_from total (x :: y :: xs))
    with ((total + x) :: cumsum_from (total + x) (y :: xs)).
  change (cumsum_from (total + x) (y :: xs))
    with ((total + x + y) :: cumsum_from (total + x + y) xs) in *.
  cbn [last] in *. rewrite IH. cbn [Series_sum fold_right]. lia.
Qed.

Lemma Series_sum_cons (x : Z) (xs : list Z) :
  Series_sum (x :: xs) = x + Series_sum xs.
Proof. reflexivity. Qed.

Lemma points_sum (code : string) (l : list Match) :
  code <> "D" ->
  Series_sum
    (map (fun x => if String.eqb (FullTimeResult x) code then 3
                   else if String.eqb (FullTimeResult x) "D" then 1 else 0)
       l)
  = len (filter (result_is code) l) * 3 + len (filter (result_is "D") l).
Proof.
  intros Hne. unfold len, result_is.
  induction l as [|x l IH]; [reflexivity|].
  cbn [map filter]. rewrite Series_sum_cons, IH.
  destruct (String.eqb_spec (FullTimeResult x) code) as [Ec|Ec];
    destruct (String.eqb_spec (FullTimeResult x) "D") as [Ed|Ed];
    cbn [List.length]; rewrite ?Nat2Z.inj_succ;
    first [congruence | lia].
Qed.

Lemma Points_column_home (l : list Match) (team : string) :
  Forall (fun x => HomeTeam x = team) l ->
  Series_sum (Points_column l team)
  = len (filter (result_is "H") l) * 3 + len (filter (result_is "D") l).
Proof.
  intros Hall. rewrite <- (points_sum "H" l) by discriminate.
  unfold Points_column. f_equal. apply map_ext_in. intros x Hx.
  rewrite Forall_forall in Hall. unfold get_team_result.
  now rewrite (proj2 (String.eqb_eq _ _) (Hall x Hx)).
Qed.

Lemma Points_column_away (l : list Match) (team : string) :
  Forall (fun x => HomeTeam x <> team) l ->
  Series_sum (Points_column l team)
  = len (filter (result_is "A") l) * 3 + len (filter (result_is "D") l).
Proof.
  intros Hall. rewrite <- (points_sum "A" l) by discriminate.
  unfold Points_column. f_equal. apply map_ext_in. intros x Hx.
  rewrite Forall_forall in Hall. unfold get_team_result.
  now rewrite (proj2 (String.eqb_neq _ _) (Hall x Hx)).
Qed.

(** X12.  When no record pairs a team with itself, the deep dive of a
    team agrees with its league row: the last cumulative points value,
    whatever order the sort by date leaves matches of one day in, is the
    row's points, the number of plotted matches is its matches played,
    and goals scored and conceded are its goals for and against. *)
Theorem deep_dive_matches_league_row
  (filtered_df : list Match) (team : string) (row : Standing)
  (team_all_sorted : list Match) :
  no_self_match filtered_df ->
  team_standing filtered_df team = Some row ->
  sorted_by_MatchDate (team_all filtered_df team) team_all_sorted ->
  last (Cumulative_Points team_all_sorted team) 0 = Points row /\
  len (Cumulative_Points team_all_sorted team) = Played row /\
  goals_scored filtered_df team = GF row /\
  goals_conceded filtered_df team = GA row.
Proof.
  intros Hself Hrow (Hperm & _).
  assert (Hsum : Series_sum (Points_column team_all_sorted team)
                 = Points row).
  { rewrite <- (Series_sum_perm
                  (Points_column (team_all filtered_df team) team))
      by (apply Permutation_map, Hperm).
    unfold Points_column, team_all. rewrite map_app, Series_sum_app.
    fold (Points_column (filter (home_of team) filtered_df) team).
    fold (Points_column (filter (away_of team) filtered_df) team).
    rewrite Points_column_home, Points_column_away.
    - unfold team_standing in Hrow.
      destruct (_ =? 0); [discriminate|]. injection Hrow as <-.
      cbn [Points]. lia.
    - apply Forall_forall. intros x Hx. apply filter_In in Hx.
      destruct Hx as (Hx & Ha). apply String.eqb_eq in Ha.
      rewrite <- Ha. now apply Hself.
    - apply Forall_forall. intros x Hx. apply filter_In in Hx.
      destruct Hx as (_ & Hh). now apply String.eqb_eq in Hh. }
  split; [|split; [|split]].
  - unfold Cumulative_Points, cumsum. rewrite cumsum_from_last.
    rewrite <- Hsum. destruct (Points_column team_all_sorted team);
      [reflexivity | lia].
  - unfold Cumulative_Points, cumsum, Points_column, len.
    assert (Hlen : forall t xs, List.length (cumsum_from t xs)
                                = List.length xs).
    { intros t xs. revert t. induction xs as [|x xs IH]; intros t;
        simpl; [reflexivity | now rewrite IH]. }
    rewrite Hlen, length_map, <- (Permutation_length Hperm).
    unfold team_all. rewrite length_app, Nat2Z.inj_add.
    apply team_standing_Some in Hrow.
    destruct Hrow as (_ & _ & -> & _). reflexivity.
  - unfold team_standing in Hrow.
    destruct (_ =? 0); [discriminate|]. now injection Hrow as <-.
  - unfold team_standing in Hrow.
    destruct (_ =? 0); [discriminate|]. now injection Hrow as <-.
Qed.

(** Team A of the two sample matches, the rows already in date order. *)
Lemma deep_dive_sample :
  last (Cumulative_Points [sample_match_1; sample_match_2] "A") 0 = 4 /\
  len (Cumulative_Points [sample_match_1; sample_match_2] "A") = 2 /\
  goals_scored [sample_match_1; sample_match_2] "A" = 2 /\
  goals_conceded [sample_match_1; sample_match_2] "A" = 1.
Proof.
  apply (deep_dive_matches_league_row
           [sample_match_1; sample_match_2] "A"
           (mkStanding 0 "A" 2 1 1 0 2 1 1 4 (fin (200 # 100)))
           [sample_match_1; sample_match_2]).
  - intros m [<-|[<-|[]]]; discriminate.
  - reflexivity.
  - split; [reflexivity|].
    repeat constructor; simpl; lia.
Defined.

Lemma get_team_result_range (row : Match) (team : string) :
  0 <= get_team_result row team <= 3.
Proof.
  unfold get_team_result.
  destruct (String.eqb (HomeTeam row) team);
    destruct (String.eqb (FullTimeResult row) "H");
    destruct (String.eqb (FullTimeResult row) "A");
    destruct (String.eqb (FullTimeResult row) "D"); lia.
Qed.

Lemma nth_error_cumsum_from (total : Z) (xs : list Z) (i : nat) (v : Z) :
  nth_error (cumsum_from total xs) i = Some v ->
  v = total + Series_sum (firstn (S i) xs).
Proof.
  revert total i. induction xs as [|x xs IH]; intros total i.
  - destruct i; discriminate.
  - destruct i as [|i].
    + simpl. intros [= <-]. lia.
    + cbn [cumsum_from nth_error]. intros H. apply IH in H.
      rewrite firstn_cons, Series_sum_cons. lia.
Qed.

Lemma cumsum_from_sorted (total : Z) (xs : list Z) :
  Forall (fun x => 0 <= x) xs ->
  StronglySorted Z.le (cumsum_from total xs) /\
  Forall (fun v => total <= v) (cumsum_from total xs).
Proof.
  intros Hpos. revert total.
  induction Hpos as [|x xs Hx Hxs IH]; intros total; simpl.
  - split; constructor.
  - destruct (IH (total + x)) as (Hs & Hge). split.
    + constructor; [exact Hs | exact Hge].
    + constructor; [lia|].
      eapply Forall_impl; [|exact Hge]. intros v Hv. simpl in Hv. lia.
Qed.

Lemma Series_sum_bounds (xs : list Z) :
  Forall (fun x => 0 <= x <= 3) xs -> 0 <= Series_sum xs <= 3 * len xs.
Proof.
  unfold len. induction 1 as [|x xs Hx _ IH]; [simpl; lia|].
  rewrite Series_sum_cons. cbn [List.length]. lia.
Qed.

(** X13.  The cumulative points series has one value per match, the
    value at each match being the sum of the points of the matches up to
    it; it never decreases, and after k matches it lies between 0 and
    3 k. *)
Theorem cumulative_points_shape :
  forall (team_all_sorted : list Match) (team : string),
    let series := Cumulative_Points team_all_sorted team in
    List.length series = List.length team_all_sorted /\
    StronglySorted Z.le series /\
    forall (i : nat) (v : Z),
      nth_error series i = Some v ->
      v = Series_sum (firstn (S i) (Points_column team_all_sorted team)) /\
      0 <= v <= 3 * (Z.of_nat i + 1).
Proof.
  intros rows team series. unfold series, Cumulative_Points, cumsum.
  assert (Hrange : Forall (fun x => 0 <= x <= 3) (Points_column rows team)).
  { unfold Points_column. apply Forall_forall. intros x Hx.
    apply in_map_iff in Hx. destruct Hx as (m & <- & _).
    apply get_team_result_range. }
  assert (Hlen : forall t xs, List.length (cumsum_from t xs)
                              = List.length xs).
  { intros t xs. revert t. induction xs as [|x xs IH]; intros t;
      simpl; [reflexivity | now rewrite IH]. }
  split; [|split].
  - rewrite Hlen. unfold Points_column. apply length_map.
  - apply cumsum_from_sorted.
    eapply Forall_impl; [|exact Hrange]. intros x Hx. simpl in Hx. lia.
  - intros i v Hv.
    assert (Hi : (i < List.length (Points_column rows team))%nat).
    { rewrite <- (Hlen 0). apply nth_error_Some. congruence. }
    apply nth_error_cumsum_from in Hv. split; [lia|].
    assert (Hfirst : Forall (fun x => 0 <= x <= 3)
                       (firstn (S i) (Points_column rows team))).
    { pose proof Hrange as Hsplit.
      rewrite <- (firstn_skipn (S i) (Points_column rows team)) in Hsplit.
      now apply Forall_app in Hsplit. }
    apply Series_sum_bounds in Hfirst. unfold len in Hfirst.
    rewrite length_firstn in Hfirst. lia.
Qed.

(** ** Predictor: the shape of the confidence *)

Lemma Prim2SF_60 :
  Prim2SF 60 = S754_finite false 8444249301319680 (-47).
Proof. reflexivity. Qed.

Lemma Prim2SF_10 :
  Prim2SF 10 = S754_finite false 5629499534213120 (-49).
Proof. reflexivity. Qed.

(** A confidence below 95 is at least 60: adding the non-negative
    [10 * |d|] to 60 does not round below 60. *)
Lemma confidence_at_least_60 (d : float) :
  (60 + 10 * abs d <? 95)%float = true ->
  (60 <=? 60 + 10 * abs d)%float = true.
Proof.
  intros Hc. rewrite leb_spec. rewrite ltb_spec in Hc.
  apply SFltb_not_nan in Hc. destruct Hc as (Hn & _).
  rewrite add_spec, mul_spec, abs_spec, Prim2SF_60, Prim2SF_10 in *.
  unfold SF64add, SF64mul in *.
  pose proof (SFmul_pos_abs 5629499534213120 (-49) (Prim2SF d)) as H.
  apply SFadd_nonneg_leb; [reflexivity | | exact Hn].
  destruct (SFmul prec emax _ (SFabs (Prim2SF d))); try exact H.
  apply Hn. reflexivity.
Qed.

(** X14.  In the binary64 arithmetic of the script, whenever the
    predictor reports numbers the confidence is the int 50 of a draw or,
    for a home or away win, the int 95 or a float from 60 up to, but
    excluding, 95.  So a confidence is never below 50, above 95 or
    strictly between 50 and 60.  The expected goals are the int 0 or a
    float above 0. *)
Theorem confidence_shape_binary64
  (filtered_df : list Match) (home_team away_team label : string)
  (confidence predicted_goals : B64.number) :
  B64.predict_match_outcome filtered_df home_team away_team
  = B64.Metrics label confidence predicted_goals ->
  ((label = "Draw" /\ confidence = B64.Int 50) \/
   ((label = "Home Win" \/ label = "Away Win") /\
    (confidence = B64.Int 95 \/
     exists c : float,
       confidence = B64.Float c /\
       (60 <=? c)%float = true /\ (c <? 95)%float = true))) /\
  (predicted_goals = B64.Int 0 \/
   exists g : float,
     predicted_goals = B64.Float g /\ (0 <? g)%float = true).
Proof.
  intros Hp.
  destruct (nonempty_dec (fixtures_at_home filtered_df home_team)) as [Hh|Hh];
    [rewrite B64_predict_match_outcome_Warning in Hp by tauto;
     discriminate|].
  destruct (nonempty_dec (fixtures_away filtered_df away_team)) as [Ha|Ha];
    [rewrite B64_predict_match_outcome_Warning in Hp by tauto;
     discriminate|].
  rewrite B64_predict_match_outcome_Metrics in Hp by assumption.
  injection Hp as Hl Hc Hg.
  set (h := homeStrength64 filtered_df home_team) in *.
  set (a := awayStrength64 filtered_df away_team) in *.
  split.
  - assert (Hdecisive :
              B64.py_min 95 (60 + 10 * abs (h - a))%float = B64.Int 95 \/
              exists c : float,
                B64.py_min 95 (60 + 10 * abs (h - a))%float = B64.Float c /\
                (60 <=? c)%float = true /\ (c <? 95)%float = true).
    { unfold B64.py_min. change (B64.of_int 95) with 95%float.
      destruct (60 + 10 * abs (h - a) <? 95)%float eqn:E;
        [right | now left].
      eexists. split; [reflexivity|].
      split; [now apply confidence_at_least_60 | exact E]. }
    destruct (B64_prediction_logic_cases h a)
      as [(_ & _ & E)|[(_ & _ & E)|(_ & _ & E)]];
      rewrite E in Hl, Hc; cbn [fst snd] in Hl, Hc; subst label confidence.
    + right. split; [now left | exact Hdecisive].
    + right. split; [now right | exact Hdecisive].
    + left. split; reflexivity.
  - subst predicted_goals. unfold B64.py_max.
    change (B64.of_int 0) with 0%float.
    match goal with
    | |- context [(0 <? ?g)%float] => destruct (0 <? g)%float eqn:E
    end; [right | now left].
    eexists. split; [reflexivity | exact E].
Qed.

(** The shape at the fixtures whose strengths are -0.5 and
    -1.0000000000000002: a home win with the least decisive confidence
    the script reports, 65. *)
Lemma confidence_shape_binary64_sample :
  (("Home Win" = "Draw" /\ B64.Float 65 = B64.Int 50) \/
   (("Home Win" = "Home Win" \/ "Home Win" = "Away Win") /\
    (B64.Float 65 = B64.Int 95 \/
     exists c : float,
       B64.Float 65 = B64.Float c /\
       (60 <=? c)%float = true /\ (c <? 95)%float = true))) /\
  (B64.Float 0x1.d555555555555p-1 = B64.Int 0 \/
   exists g : float,
     B64.Float 0x1.d555555555555p-1 = B64.Float g /\
     (0 <? g)%float = true).
Proof.
  apply (confidence_shape_binary64
           [mkMatch 1 "2023/24" "A" "C" 1 1 "D";
            mkMatch 2 "2023/24" "A" "D" 0 1 "A";
            mkMatch 3 "2023/24" "C" "B" 2 1 "H";
            mkMatch 4 "2023/24" "D" "B" 2 2 "D";
            mkMatch 5 "2023/24" "E" "B" 3 1 "H"] "A" "B").
  vm_compute. reflexivity.
Defined.
